(** * launch_amazon_mysql_server.py: configuration resolution and launch

    A shallow embedding of [get_subnet_from_sg] and
    [launch_amazon_mysql_server] of [launch_amazon_mysql_server.py], with
    the static tables of [lib/environment_specific.py] and the external
    collaborators (security role, hostname registry, EC2) taken as
    parameters.

    - Python dictionaries that are only indexed are [gmap string _];
      [VPC_SUBNET_SG_MAP], whose keys are iterated, is an association list
      in the dictionary's iteration order.
    - Exceptions are values of [exn]; every collaborator call and every
      [log.info] is recorded, in order, in a trace of [event]s that
      survives a raised exception. A collaborator call may itself raise,
      after it has been recorded. *)

From Stdlib Require Import String Ascii.
From stdpp Require Import base option list strings gmap fin_maps.

Open Scope string_scope.
Open Scope list_scope.

(** ** Python built-ins used by the script *)

Module Py.

(** [if x:] on a value that is [None] or a [str]. *)
Definition truthy (x : option string) : bool :=
  match x with
  | None => false
  | Some s => negb (String.eqb s "")
  end.

(** [a >= b] on [str]: lexicographic order on character codes. *)
Definition str_ge (a b : string) : bool := String.leb b a.

(** [x in l] for a list of [str] and [x] that is [None] or a [str]. *)
Definition contains (l : list string) (x : option string) : bool :=
  match x with
  | None => false
  | Some s => bool_decide (s ∈ l)
  end.

(** [s.replace(c, '')] for a one-character [c]. *)
Fixpoint remove_char (c : ascii) (s : string) : string :=
  match s with
  | EmptyString => EmptyString
  | String a s' =>
      if Ascii.eqb a c then remove_char c s' else String a (remove_char c s')
  end.

(** [str(x)] for [None], [str] and [bool]. *)
Definition str_opt (x : option string) : string :=
  match x with None => "None" | Some s => s end.

Definition str_bool (b : bool) : string := if b then "True" else "False".

(** [", ".join(l)]. *)
Fixpoint join (sep : string) (l : list string) : string :=
  match l with
  | [] => ""
  | [s] => s
  | s :: l' => s +:+ sep +:+ join sep l'
  end.

Definition squote : ascii := "'"%char.
Definition dquote : ascii := "034"%char.
Definition backslash : ascii := "092"%char.

(** [c in s] for a one-character [c]. *)
Fixpoint has_char (c : ascii) (s : string) : bool :=
  match s with
  | EmptyString => false
  | String a s' => Ascii.eqb a c || has_char c s'
  end.

Definition hex_digit (n : nat) : ascii :=
  match String.get n "0123456789abcdef" with
  | Some c => c
  | None => "0"%char
  end.

(** One character of [repr(s)] for a byte string [s] that is written
    between [quote]s: the quote and the backslash are escaped, tab, line
    feed and carriage return get their letter, every other byte outside
    the printable ASCII range is written in hexadecimal. *)
Definition repr_char (quote c : ascii) : string :=
  if Ascii.eqb c quote || Ascii.eqb c backslash
  then String backslash (String c "")
  else if Ascii.eqb c "009"%char then String backslash "t"
  else if Ascii.eqb c "010"%char then String backslash "n"
  else if Ascii.eqb c "013"%char then String backslash "r"
  else
    let n := nat_of_ascii c in
    if Nat.ltb n 32 || Nat.leb 127 n
    then String backslash
           (String "x"%char
              (String (hex_digit (n / 16))
                 (String (hex_digit (n mod 16)) "")))
    else String c "".

Fixpoint repr_chars (quote : ascii) (s : string) : string :=
  match s with
  | EmptyString => EmptyString
  | String c s' => repr_char quote c +:+ repr_chars quote s'
  end.

(** [repr(s)] for a [str] of Python 2, a byte string: single quotes,
    unless [s] holds a single quote and no double quote. *)
Definition repr (s : string) : string :=
  let quote :=
    if has_char squote s && negb (has_char dquote s)
    then dquote else squote in
  String quote (repr_chars quote s +:+ String quote "").

(** [str(l)] for a list of [str], as [str.format] writes a list argument:
    the [repr] of each element, separated by [", "], between brackets. *)
Definition str_list (l : list string) : string :=
  "[" +:+ join ", " (map repr l) +:+ "]".

(** A name that [repr] writes as it is: printable ASCII without a single
    quote or a backslash. *)
Definition plain_char (c : ascii) : bool :=
  let n := nat_of_ascii c in
  Nat.leb 32 n && Nat.ltb n 127
  && negb (Ascii.eqb c squote) && negb (Ascii.eqb c backslash).

Fixpoint plain (s : string) : bool :=
  match s with
  | EmptyString => true
  | String c s' => plain_char c && plain s'
  end.

Definition nl : string := String "010"%char EmptyString.

End Py.

(** ** Exceptions, events and the effect monad *)

(** The exceptions that can end a call. The script's own statements
    raise two: the generic [Exception(msg)] of its [raise] statements and
    the [KeyError(key)] of a failed dictionary subscript ([None] is the
    key [None]). [External what] is an exception that escapes a call to a
    collaborator (the MySQL connection, the hostname registry, EC2),
    whatever its class and text: it is told apart from the script's own by
    its origin. *)
Inductive exn : Type :=
| Exception (msg : string)
| KeyError (key : option string)
| External (what : string).

(** An entry of the [config] dictionary: a [str] or a list of [str]. *)
Inductive value : Type :=
| Str (s : string)
| StrList (l : list string).

(** The payload of each [log.info] call. *)
Inductive log_msg : Type :=
| Requested (param value : string)
| WillUseSubnet (vpc_az_subnet vpc_subnet : string) (sg : option string)
    (az : string)
| ConfigForNewServer (config : gmap string value)
| InDryRunMode
| LaunchedInstance (id : string).

Inductive event : Type :=
| Log (m : log_msg)
| GetSecurityRole
| GetMysqlopsConnections
| IsHostnameNew (hostname : string)
| ConnectToRegion (region : string)
| RunInstances (config : gmap string value).

(** A computation threads the trace of events and ends in a value or in a
    raised exception. *)
Definition M (A : Type) : Type := list event → (exn + A) * list event.

Definition ret {A} (a : A) : M A := λ tr, (inr a, tr).

Definition bind {A B} (m : M A) (f : A → M B) : M B :=
  λ tr, match m tr with
        | (inl e, tr') => (inl e, tr')
        | (inr a, tr') => f a tr'
        end.

Definition raise {A} (e : exn) : M A := λ tr, (inl e, tr).

Definition emit (ev : event) : M unit := λ tr, (inr tt, tr ++ [ev]).

Definition run {A} (m : M A) : (exn + A) * list event := m [].

Declare Scope py_scope.
Delimit Scope py_scope with py.
Notation "'let!' x := m 'in' k" := (bind m (λ x, k))
  (at level 10, x pattern, m at level 100, k at level 200, only parsing)
  : py_scope.
Open Scope py_scope.

(** [d[k]]. *)
Definition getitem {V} (d : gmap string V) (k : string) : M V :=
  match d !! k with
  | Some v => ret v
  | None => raise (KeyError (Some k))
  end.

(** [d[k]] where [k] may be [None], which is never a key of our tables. *)
Definition getitem_opt {V} (d : gmap string V) (k : option string) : M V :=
  match k with
  | Some s => getitem d s
  | None => raise (KeyError None)
  end.

(** [d[k]] on a dictionary kept in iteration order. *)
Fixpoint assoc {V} (d : list (string * V)) (k : string) : option V :=
  match d with
  | [] => None
  | (k', v) :: d' => if String.eqb k' k then Some v else assoc d' k
  end.

Definition getitem_ordered {V} (d : list (string * V)) (k : string) : M V :=
  match assoc d k with
  | Some v => ret v
  | None => raise (KeyError (Some k))
  end.

(** [d.keys()]. *)
Definition keys {V} (d : list (string * V)) : list string := d.*1.

(** [template.format] with keyword arguments, for a template whose
    replacement fields are all named and carry no conversion or format
    specification. *)
Inductive piece : Type :=
| Lit (s : string)
| Field (name : string).

Fixpoint format (template : list piece) (kwargs : gmap string string)
  : M string :=
  match template with
  | [] => ret ""
  | Lit s :: t => let! rest := format t kwargs in ret (s +:+ rest)
  | Field name :: t =>
      let! v := getitem kwargs name in
      let! rest := format t kwargs in
      ret (v +:+ rest)
  end.

(** ** Static configuration and collaborators *)

(** The constants of [lib/environment_specific.py] that the script reads.
    That module is site configuration, so every table is a parameter. *)
Record environment_specific : Type := {
  ROLE_TO_LAUNCH_INSTANCE : list string;
  ROLE_ERROR_MSG : string;
  PEM_KEY : string;
  INSTANCE_PROFILE_NAME : string;
  SUPPORTED_HARDWARE : gmap string (gmap string (gmap string string));
  VPC_SUBNET_SG_MAP : list (string * list string);
  VPC_AZ_SUBNET_MAP : gmap string (gmap string string);
  SSH_SECURITY_MAP : gmap string (gmap string string);
  VPC_SECURITY_GROUPS : gmap string string;
  SSH_IAM_MAPPING : gmap string string;
  HIERA_FORMAT : list piece;
  SUPPORTED_HIERA_CONFIGS : list string;
  PINFO_TEAM : string;
  PINFO_ENV : string;
  RAID_MOUNT : string;
  EC2_REGION : string
}.

(** A call to a collaborator returns a value or raises an exception of
    the collaborator's own. *)
Inductive answer (A : Type) : Type :=
| Answers (a : A)
| Raises (what : string).
Arguments Answers {A} a.
Arguments Raises {A} what.

(** What the external systems do when the script calls them:
    [host_utils.get_security_role()], the role of the local host,
    [mysql_lib.get_mysqlops_connections()],
    [launch_replacement_db_host.is_hostname_new(hostname, conn)],
    [boto.ec2.connect_to_region(region)] and
    [conn.run_instances(config).instances[0].id], the id of the first
    instance that EC2 starts. Each of the four calls of lines 142 to 151
    either answers or raises once it has been made; the role of line 91,
    asked before any table is read, is the role that was answered. *)
Record world : Type := {
  security_role : string;
  mysqlops_connections : answer unit;
  hostname_new : string → answer bool;
  ec2_connection : string → answer unit;
  launched_id : gmap string value → answer string
}.

(** The arguments of [launch_amazon_mysql_server]. *)
Record request : Type := {
  hostname : string;
  instance_type : string;
  vpc_security_group : option string;
  availability_zone : string;
  ssh_group : option string;
  mysql_major_version : string;
  mysql_minor_version : string;
  os_flavor : string;
  dry_run : bool;
  skip_name_check : bool
}.

(** ** The script *)

Section Script.

Context (E : environment_specific) (W : world).

Definition log_info (m : log_msg) : M unit := emit (Log m).

Definition get_security_role : M string :=
  let! _ := emit GetSecurityRole in ret W.(security_role).

(** The outcome of a collaborator call that has been made. *)
Definition external {A} (a : answer A) : M A :=
  match a with
  | Answers x => ret x
  | Raises what => raise (External what)
  end.

Definition get_mysqlops_connections : M unit :=
  let! _ := emit GetMysqlopsConnections in
  external W.(mysqlops_connections).

Definition is_hostname_new (name : string) (conn : unit) : M bool :=
  let! _ := emit (IsHostnameNew name) in external (W.(hostname_new) name).

Definition connect_to_region (region : string) : M unit :=
  let! _ := emit (ConnectToRegion region) in
  external (W.(ec2_connection) region).

Definition run_instances (conn : unit) (config : gmap string value)
  : M string :=
  let! _ := emit (RunInstances config) in external (W.(launched_id) config).

(** *** [get_subnet_from_sg] *)

Definition no_subnet_msg (sg : option string) : string :=
  "Could not determine subnet for sg:" +:+ Py.str_opt sg.

(** The [for entry in VPC_SUBNET_SG_MAP.keys()] loop; [vpc_subnet] is the
    loop-carried variable. *)
Fixpoint scan_entries (entries : list string) (sg : option string)
    (vpc_subnet : option string) : M (option string) :=
  match entries with
  | [] => ret vpc_subnet
  | entry :: rest =>
      let! members := getitem_ordered E.(VPC_SUBNET_SG_MAP) entry in
      scan_entries rest sg
        (if Py.contains members sg then Some entry else vpc_subnet)
  end.

Definition get_subnet_from_sg (sg : option string) (az : string)
  : M (string * string) :=
  let! vpc_subnet := scan_entries (keys E.(VPC_SUBNET_SG_MAP)) sg None in
  match vpc_subnet with
  | Some vpc_subnet =>
      if negb (Py.truthy (Some vpc_subnet))
      then raise (Exception (no_subnet_msg sg))
      else
        let! by_az := getitem E.(VPC_AZ_SUBNET_MAP) vpc_subnet in
        let! vpc_az_subnet := getitem by_az az in
        let! _ := log_info (WillUseSubnet vpc_az_subnet vpc_subnet sg az) in
        ret (vpc_subnet, vpc_az_subnet)
  | None => raise (Exception (no_subnet_msg sg))
  end.

(** *** [launch_amazon_mysql_server] *)

(** The [log.info("Requested ...")] loop over the function's own
    arguments, in signature order. *)
Definition requested (r : request) : list (string * string) :=
  [ ("hostname", r.(hostname));
    ("instance_type", r.(instance_type));
    ("vpc_security_group", Py.str_opt r.(vpc_security_group));
    ("availability_zone", r.(availability_zone));
    ("ssh_group", Py.str_opt r.(ssh_group));
    ("mysql_major_version", r.(mysql_major_version));
    ("mysql_minor_version", r.(mysql_minor_version));
    ("os_flavor", r.(os_flavor));
    ("dry_run", Py.str_bool r.(dry_run));
    ("skip_name_check", Py.str_bool r.(skip_name_check)) ].

Fixpoint log_requested (l : list (string * string)) : M unit :=
  match l with
  | [] => ret tt
  | (param, v) :: l' =>
      let! _ := log_info (Requested param v) in log_requested l'
  end.

Definition weaker_policy_msg (ssh_group ssh_security : string) : string :=
  "We are not allowed to provision a host in " +:+ ssh_group +:+
  " env with a weaker access policy than " +:+ ssh_security +:+
  " it's existing or default config".

Definition hiera_msg (hiera_config : string) : string :=
  "Hiera config " +:+ hiera_config +:+
  " is not supported.Supported configs are: " +:+
  Py.str_list E.(SUPPORTED_HIERA_CONFIGS).

Definition hostname_used_msg (name : string) : string :=
  "Hostname " +:+ name +:+ " has already been used!".

Definition user_data (hiera_config name : string) : string :=
  "#cloud-config" +:+ Py.nl +:+
  "pinfo_team: " +:+ E.(PINFO_TEAM) +:+ Py.nl +:+
  "pinfo_env: " +:+ E.(PINFO_ENV) +:+ Py.nl +:+
  "pinfo_role: " +:+ hiera_config +:+ Py.nl +:+
  "hostname: " +:+ name +:+ Py.nl +:+
  "raid: true" +:+ Py.nl +:+
  "raid_fs: xfs" +:+ Py.nl +:+
  "raid_mount: " +:+ E.(RAID_MOUNT).

Definition hiera_kwargs (ssh_security major minor : string)
  : gmap string string :=
  <["ssh_security" := ssh_security]>
    (<["mysql_major_version" := Py.remove_char "." major]>
       (<["mysql_minor_version" := minor]> ∅)).

Definition launch_amazon_mysql_server (r : request) : M (option string) :=
  let! _ := log_requested (requested r) in
  let! role := get_security_role in
  if negb (bool_decide (role ∈ E.(ROLE_TO_LAUNCH_INSTANCE)))
  then raise (Exception E.(ROLE_ERROR_MSG))
  else
    let! hardware := getitem E.(SUPPORTED_HARDWARE) r.(instance_type) in
    let! ami := getitem hardware "ami" in
    let! image_id := getitem ami r.(os_flavor) in
    let config : gmap string value :=
      <["key_name" := Str E.(PEM_KEY)]>
        (<["placement" := Str r.(availability_zone)]>
           (<["instance_profile_name" := Str E.(INSTANCE_PROFILE_NAME)]>
              (<["image_id" := Str image_id]>
                 (<["instance_type" := Str r.(instance_type)]> ∅)))) in
    let! (subnet_name, subnet_id) :=
      get_subnet_from_sg r.(vpc_security_group) r.(availability_zone) in
    let config := <["subnet_id" := Str subnet_id]> config in
    let! security := getitem E.(SSH_SECURITY_MAP) subnet_name in
    let! ssh_security := getitem security "ssh" in
    let! security := getitem E.(SSH_SECURITY_MAP) subnet_name in
    let! iam := getitem security "iam" in
    let config := <["instance_profile_name" := Str iam]> config in
    let! sg_id := getitem_opt E.(VPC_SECURITY_GROUPS) r.(vpc_security_group) in
    let config := <["security_group_ids" := StrList [sg_id]]> config in
    let! (ssh_security, config) :=
      match r.(ssh_group) with
      | Some ssh_group =>
          if Py.truthy (Some ssh_group)
          then
            if Py.str_ge ssh_group ssh_security
               && bool_decide (is_Some (E.(SSH_IAM_MAPPING) !! ssh_group))
            then
              let! profile := getitem E.(SSH_IAM_MAPPING) ssh_group in
              ret (ssh_group,
                   <["instance_profile_name" := Str profile]> config)
            else
              raise (Exception (weaker_policy_msg ssh_group ssh_security))
          else ret (ssh_security, config)
      | None => ret (ssh_security, config)
      end in
    let! hiera_config :=
      format E.(HIERA_FORMAT)
        (hiera_kwargs ssh_security r.(mysql_major_version)
           r.(mysql_minor_version)) in
    if negb (bool_decide (hiera_config ∈ E.(SUPPORTED_HIERA_CONFIGS)))
    then raise (Exception (hiera_msg hiera_config))
    else
      let config :=
        <["user_data" := Str (user_data hiera_config r.(hostname))]> config in
      let! _ := log_info (ConfigForNewServer config) in
      let! conn := get_mysqlops_connections in
      let! used :=
        if negb r.(skip_name_check)
        then let! is_new := is_hostname_new r.(hostname) conn in
             ret (negb is_new)
        else ret false in
      if used
      then raise (Exception (hostname_used_msg r.(hostname)))
      else
        if r.(dry_run)
        then
          let! _ := log_info InDryRunMode in
          ret None
        else
          let! conn := connect_to_region E.(EC2_REGION) in
          let! instance_id := run_instances conn config in
          let! _ := log_info (LaunchedInstance instance_id) in
          ret (Some instance_id).

End Script.

(** ** Observations on a run *)

(** The test of the loop body of [get_subnet_from_sg]:
    [sg in VPC_SUBNET_SG_MAP[entry]]. *)
Definition in_network (E : environment_specific) (sg : option string)
    (entry : string) : bool :=
  match assoc E.(VPC_SUBNET_SG_MAP) entry with
  | Some members => Py.contains members sg
  | None => false
  end.

(** The value of [vpc_subnet] after the loop has visited [entries]. *)
Definition selected (E : environment_specific) (sg : option string)
    (entries : list string) (vpc_subnet : option string) : option string :=
  foldl (λ acc entry, if in_network E sg entry then Some entry else acc)
    vpc_subnet entries.

(** [VPC_AZ_SUBNET_MAP[network][az]], when both keys are present. *)
Definition subnet_of (E : environment_specific) (network az : string)
  : option string :=
  E.(VPC_AZ_SUBNET_MAP) !! network ≫= λ by_az, by_az !! az.

(** [SUPPORTED_HARDWARE[instance_type]['ami'][os_flavor]], when all three
    keys are present. *)
Definition image_of (E : environment_specific) (type flavor : string)
  : option string :=
  E.(SUPPORTED_HARDWARE) !! type ≫= λ hardware,
  hardware !! "ami" ≫= λ ami, ami !! flavor.

(** [SSH_SECURITY_MAP[network][field]], when both keys are present. *)
Definition security_of (E : environment_specific) (network field : string)
  : option string :=
  E.(SSH_SECURITY_MAP) !! network ≫= λ security, security !! field.

(** The values that lines 91 to 105 of the script read from the tables. *)
Record resolution : Type := {
  res_image : string;
  res_network : string;
  res_subnet : string;
  res_ssh : string;
  res_iam : string;
  res_sg_id : string
}.

(** The request gets through the role check, the image lookup, the subnet
    resolution and the lookups of the subnet's defaults and the security
    group id, with the values [x]. *)
Definition resolves (E : environment_specific) (W : world) (r : request)
    (x : resolution) : Prop :=
  W.(security_role) ∈ E.(ROLE_TO_LAUNCH_INSTANCE)
  ∧ image_of E r.(instance_type) r.(os_flavor) = Some x.(res_image)
  ∧ (run (get_subnet_from_sg E r.(vpc_security_group)
            r.(availability_zone))).1
    = inr (x.(res_network), x.(res_subnet))
  ∧ security_of E x.(res_network) "ssh" = Some x.(res_ssh)
  ∧ security_of E x.(res_network) "iam" = Some x.(res_iam)
  ∧ (r.(vpc_security_group) ≫= λ g, E.(VPC_SECURITY_GROUPS) !! g)
    = Some x.(res_sg_id).

(** What the opening [log.info] loop leaves in the trace. *)
Definition requested_log (r : request) : list event :=
  map (λ pv, Log (Requested pv.1 pv.2)) (requested r).

(** Calls to the compute provider. *)
Definition provisioning (ev : event) : bool :=
  match ev with
  | ConnectToRegion _ | RunInstances _ => true
  | _ => false
  end.

(** The complete [config] dictionaries that left the function: logged as
    the configuration of the new server, or submitted to EC2. *)
Definition descriptor (ev : event) : option (gmap string value) :=
  match ev with
  | Log (ConfigForNewServer config) | RunInstances config => Some config
  | _ => None
  end.

Definition descriptors (tr : list event) : list (gmap string value) :=
  omap descriptor tr.

(** The keys of a complete [config]. *)
Definition config_keys : gset string :=
  {[ "key_name"; "placement"; "instance_profile_name"; "image_id";
     "instance_type"; "subnet_id"; "security_group_ids"; "user_data" ]}.

(** ** A concrete site configuration

    One network ["prod-a"] holding security group ["sg-app"], with a subnet
    in zone ["us-east-1a"]; access groups are named so that their string
    order is their rank. *)

Module Site.

Definition tables : environment_specific := {|
  ROLE_TO_LAUNCH_INSTANCE := ["dba"; "sre"];
  ROLE_ERROR_MSG := "This role may not launch instances";
  PEM_KEY := "mysql-key";
  INSTANCE_PROFILE_NAME := "base-profile";
  SUPPORTED_HARDWARE :=
    {[ "i2.2xlarge" :=
         {[ "ami" := {[ "precise" := "ami-0001" ]} ]} ]};
  VPC_SUBNET_SG_MAP :=
    [("prod-a", ["sg-app"; "sg-db"]); ("prod-b", ["sg-web"])];
  VPC_AZ_SUBNET_MAP :=
    <["prod-a" := {[ "us-east-1a" := "subnet-123" ]}]>
      {[ "prod-b" := {[ "us-east-1a" := "subnet-456" ]} ]};
  SSH_SECURITY_MAP :=
    <["prod-a" := <["ssh" := "level2"]> {[ "iam" := "iam-level2" ]}]>
      {[ "prod-b" := <["ssh" := "level1"]> {[ "iam" := "iam-level1" ]} ]};
  VPC_SECURITY_GROUPS :=
    <["sg-app" := "sg-0a"]> (<["sg-db" := "sg-0b"]> {[ "sg-web" := "sg-0c" ]});
  SSH_IAM_MAPPING :=
    <["level1" := "iam-level1"]>
      (<["level2" := "iam-level2"]> {[ "level3" := "iam-level3" ]});
  HIERA_FORMAT :=
    [Field "ssh_security"; Lit "-"; Field "mysql_major_version"; Lit "-";
     Field "mysql_minor_version"];
  SUPPORTED_HIERA_CONFIGS := ["level2-56-stable"; "level3-56-stable"];
  PINFO_TEAM := "db";
  PINFO_ENV := "prod";
  RAID_MOUNT := "/raid0";
  EC2_REGION := "us-east-1"
|}.

(** The same site with ["sg-app"] wrongly listed under two networks. *)
Definition ambiguous : environment_specific := {|
  ROLE_TO_LAUNCH_INSTANCE := tables.(ROLE_TO_LAUNCH_INSTANCE);
  ROLE_ERROR_MSG := tables.(ROLE_ERROR_MSG);
  PEM_KEY := tables.(PEM_KEY);
  INSTANCE_PROFILE_NAME := tables.(INSTANCE_PROFILE_NAME);
  SUPPORTED_HARDWARE := tables.(SUPPORTED_HARDWARE);
  VPC_SUBNET_SG_MAP :=
    [("prod-a", ["sg-app"; "sg-db"]); ("prod-b", ["sg-web"; "sg-app"])];
  VPC_AZ_SUBNET_MAP := tables.(VPC_AZ_SUBNET_MAP);
  SSH_SECURITY_MAP := tables.(SSH_SECURITY_MAP);
  VPC_SECURITY_GROUPS := tables.(VPC_SECURITY_GROUPS);
  SSH_IAM_MAPPING := tables.(SSH_IAM_MAPPING);
  HIERA_FORMAT := tables.(HIERA_FORMAT);
  SUPPORTED_HIERA_CONFIGS := tables.(SUPPORTED_HIERA_CONFIGS);
  PINFO_TEAM := tables.(PINFO_TEAM);
  PINFO_ENV := tables.(PINFO_ENV);
  RAID_MOUNT := tables.(RAID_MOUNT);
  EC2_REGION := tables.(EC2_REGION)
|}.

(** A caller with a permitted role and collaborators that answer; only
    ["db-used"] is a taken host name. *)
Definition dba : world := {|
  security_role := "dba";
  mysqlops_connections := Answers tt;
  hostname_new := λ h, Answers (negb (String.eqb h "db-used"));
  ec2_connection := λ _, Answers tt;
  launched_id := λ _, Answers "i-0123"
|}.

Definition guest : world := {|
  security_role := "guest";
  mysqlops_connections := dba.(mysqlops_connections);
  hostname_new := dba.(hostname_new);
  ec2_connection := dba.(ec2_connection);
  launched_id := dba.(launched_id)
|}.

(** The same caller when EC2 refuses the launch. *)
Definition refused : world := {|
  security_role := "dba";
  mysqlops_connections := Answers tt;
  hostname_new := dba.(hostname_new);
  ec2_connection := λ _, Answers tt;
  launched_id := λ _, Raises "InsufficientInstanceCapacity"
|}.

(** The same caller when the MySQL connection cannot be opened. *)
Definition offline : world := {|
  security_role := "dba";
  mysqlops_connections := Raises "OperationalError";
  hostname_new := dba.(hostname_new);
  ec2_connection := dba.(ec2_connection);
  launched_id := dba.(launched_id)
|}.

Definition req (name : string) (ssh : option string) (flavor : string)
    (dry : bool) : request := {|
  hostname := name;
  instance_type := "i2.2xlarge";
  vpc_security_group := Some "sg-app";
  availability_zone := "us-east-1a";
  ssh_group := ssh;
  mysql_major_version := "5.6";
  mysql_minor_version := "stable";
  os_flavor := flavor;
  dry_run := dry;
  skip_name_check := false
|}.

End Site.

(** ** The command line *)

(** The [Namespace] that [parser.parse_args()] returns: one attribute per
    option. Parsing itself is [argparse]'s and is not modelled;
    [vpc_security_group] and [ssh_group] default to [None]. *)
Record namespace : Type := {
  args_hostname : string;
  args_instance_type : string;
  args_vpc_security_group : option string;
  args_availability_zone : string;
  args_ssh_group : option string;
  args_mysql_major_version : string;
  args_mysql_minor_version : string;
  args_os_flavor : string;
  args_dry_run : bool
}.

(** [main], from line 52 on, for the parsed [args]: the call leaves
    [skip_name_check] at its default [False] and drops the returned id. *)
Definition main (E : environment_specific) (W : world) (args : namespace)
  : M unit :=
  let! _ :=
    launch_amazon_mysql_server E W
      {| hostname := args.(args_hostname);
         instance_type := args.(args_instance_type);
         vpc_security_group := args.(args_vpc_security_group);
         availability_zone := args.(args_availability_zone);
         ssh_group := args.(args_ssh_group);
         mysql_major_version := args.(args_mysql_major_version);
         mysql_minor_version := args.(args_mysql_minor_version);
         os_flavor := args.(args_os_flavor);
         dry_run := args.(args_dry_run);
         skip_name_check := false |} in
  ret tt.

(** ** Variations of a request and of the tables *)


(** The same call with another [ssh_group] argument. *)
Definition set_ssh_group (g : option string) (r : request) : request :=
  {| hostname := r.(hostname);
     instance_type := r.(instance_type);
     vpc_security_group := r.(vpc_security_group);
     availability_zone := r.(availability_zone);
     ssh_group := g;
     mysql_major_version := r.(mysql_major_version);
     mysql_minor_version := r.(mysql_minor_version);
     os_flavor := r.(os_flavor);
     dry_run := r.(dry_run);
     skip_name_check := r.(skip_name_check) |}.

(** The same call with another [mysql_major_version] argument. *)
Definition set_mysql_major_version (v : string) (r : request) : request :=
  {| hostname := r.(hostname);
     instance_type := r.(instance_type);
     vpc_security_group := r.(vpc_security_group);
     availability_zone := r.(availability_zone);
     ssh_group := r.(ssh_group);
     mysql_major_version := v;
     mysql_minor_version := r.(mysql_minor_version);
     os_flavor := r.(os_flavor);
     dry_run := r.(dry_run);
     skip_name_check := r.(skip_name_check) |}.

(** The same tables with [VPC_SUBNET_SG_MAP] iterated in another order or
    holding other entries. *)
Definition set_VPC_SUBNET_SG_MAP (d : list (string * list string))
    (E : environment_specific) : environment_specific :=
  {| ROLE_TO_LAUNCH_INSTANCE := E.(ROLE_TO_LAUNCH_INSTANCE);
     ROLE_ERROR_MSG := E.(ROLE_ERROR_MSG);
     PEM_KEY := E.(PEM_KEY);
     INSTANCE_PROFILE_NAME := E.(INSTANCE_PROFILE_NAME);
     SUPPORTED_HARDWARE := E.(SUPPORTED_HARDWARE);
     VPC_SUBNET_SG_MAP := d;
     VPC_AZ_SUBNET_MAP := E.(VPC_AZ_SUBNET_MAP);
     SSH_SECURITY_MAP := E.(SSH_SECURITY_MAP);
     VPC_SECURITY_GROUPS := E.(VPC_SECURITY_GROUPS);
     SSH_IAM_MAPPING := E.(SSH_IAM_MAPPING);
     HIERA_FORMAT := E.(HIERA_FORMAT);
     SUPPORTED_HIERA_CONFIGS := E.(SUPPORTED_HIERA_CONFIGS);
     PINFO_TEAM := E.(PINFO_TEAM);
     PINFO_ENV := E.(PINFO_ENV);
     RAID_MOUNT := E.(RAID_MOUNT);
     EC2_REGION := E.(EC2_REGION) |}.

(** The calls to [run_instances] in a trace. *)
Definition submitted (tr : list event) : list (gmap string value) :=
  omap (λ ev, match ev with RunInstances config => Some config | _ => None end)
    tr.

(** The host names the registry was asked about. *)
Definition registry_queries (tr : list event) : list string :=
  omap (λ ev, match ev with IsHostnameNew h => Some h | _ => None end) tr.

(** Command-line arguments on the concrete site. *)
Definition site_args (name : string) (dry : bool) : namespace :=
  {| args_hostname := name;
     args_instance_type := "i2.2xlarge";
     args_vpc_security_group := Some "sg-app";
     args_availability_zone := "us-east-1a";
     args_ssh_group := None;
     args_mysql_major_version := "5.6";
     args_mysql_minor_version := "stable";
     args_os_flavor := "precise";
     args_dry_run := dry |}.

(** A caller that skips the host-name check. *)
Definition site_skip (name : string) (dry : bool) : request :=
  {| hostname := name;
     instance_type := "i2.2xlarge";
     vpc_security_group := Some "sg-app";
     availability_zone := "us-east-1a";
     ssh_group := None;
     mysql_major_version := "5.6";
     mysql_minor_version := "stable";
     os_flavor := "precise";
     dry_run := dry;
     skip_name_check := true |}.

(** * Properties *)

(** ** The effect monad and the built-ins *)

Lemma assoc_keys {V} (d : list (string * V)) (k : string) :
  k ∈ keys d → is_Some (assoc d k).
Proof.
  unfold keys. induction d as [|[k' v] d IH]; simpl.
  - intros H. by apply elem_of_nil in H.
  - intros [->|H]%elem_of_cons.
    + rewrite String.eqb_refl. eauto.
    + destruct (String.eqb k' k); eauto.
Qed.

Lemma assoc_elem_of {V} (d : list (string * V)) (k : string) (v : V) :
  assoc d k = Some v → (k, v) ∈ d.
Proof.
  induction d as [|[k' v'] d IH]; simpl; [done|].
  destruct (String.eqb k' k) eqn:Hk.
  - apply String.eqb_eq in Hk as ->. intros [= ->]. by left.
  - intros H. right. by apply IH.
Qed.

Lemma truthy_Some (s : string) : Py.truthy (Some s) = true ↔ s ≠ "".
Proof.
  unfold Py.truthy. rewrite negb_true_iff. split.
  - intros H ->. by rewrite String.eqb_refl in H.
  - intros H. by apply String.eqb_neq.
Qed.

Lemma remove_char_absent (c : ascii) (s : string) :
  String.index 0 (String c EmptyString) (Py.remove_char c s) = None.
Proof.
  induction s as [|a s IH]; simpl; [done|].
  destruct (Ascii.eqb a c) eqn:Hac; [done|].
  simpl. destruct (ascii_dec c a) as [->|Hne].
  - by rewrite Ascii.eqb_refl in Hac.
  - simpl in IH. by rewrite IH.
Qed.

Lemma log_requested_run (r : request) (tr : list event) :
  log_requested (requested r) tr = (inr tt, tr ++ requested_log r).
Proof.
  unfold requested_log. generalize (requested r) as l. intros l.
  revert tr. induction l as [|[p v] l IH]; intros tr; simpl.
  - by rewrite app_nil_r.
  - unfold bind, log_info, emit. rewrite IH. by rewrite <- app_assoc.
Qed.

Lemma descriptors_app (tr1 tr2 : list event) :
  descriptors (tr1 ++ tr2) = descriptors tr1 ++ descriptors tr2.
Proof. apply omap_app. Qed.

Lemma descriptors_requested_log (r : request) :
  descriptors (requested_log r) = [].
Proof. reflexivity. Qed.

Lemma provisioning_requested_log (r : request) :
  Forall (λ ev, provisioning ev = false) (requested_log r).
Proof. unfold requested_log, requested. simpl. repeat constructor. Qed.

Lemma string_ltb_not_ge (a b : string) :
  String.ltb a b = true → Py.str_ge a b = false.
Proof.
  unfold Py.str_ge, String.ltb, String.leb.
  rewrite (String.compare_antisym a b).
  by destruct (String.compare b a).
Qed.


Lemma format_frame (t : list piece) (kw : gmap string string)
    (tr : list event) :
  format t kw tr = ((run (format t kw)).1, tr).
Proof.
  unfold run. induction t as [|[s|name] t IH]; simpl; [done|..].
  - unfold bind. rewrite IH. by destruct (format t kw []) as [[e|v] tr0].
  - unfold bind, getitem. destruct (kw !! name); simpl; [|done].
    rewrite IH. by destruct (format t kw []) as [[e|v] tr0].
Qed.

Lemma append_assoc (a b c : string) : (a +:+ b) +:+ c = a +:+ (b +:+ c).
Proof.
  induction a as [|x a IH]; [done|].
  change (String x ((a +:+ b) +:+ c) = String x (a +:+ b +:+ c)).
  by f_equal.
Qed.

Lemma append_nil (a : string) : a +:+ "" = a.
Proof.
  induction a as [|x a IH]; [done|].
  change (String x (a +:+ "") = String x a). by f_equal.
Qed.

(** [repr] on the names of a usual table, and on names that need the
    other quote or an escape. *)
Example str_list_plain_names :
  Py.str_list ["level2-56-stable"; "level3-56-stable"]
  = "['level2-56-stable', 'level3-56-stable']".
Proof. reflexivity. Qed.

Example str_list_empty : Py.str_list [] = "[]".
Proof. reflexivity. Qed.

Example repr_single_quote :
  Py.repr "it's" = String Py.dquote ("it's" +:+ String Py.dquote "").
Proof. reflexivity. Qed.

Example repr_both_quotes :
  Py.repr ("a'b" +:+ String Py.dquote "c")
  = "'a" +:+ String Py.backslash ("'b" +:+ String Py.dquote "c'").
Proof. reflexivity. Qed.

Example repr_backslash :
  Py.repr ("a" +:+ String Py.backslash "b")
  = "'a" +:+ String Py.backslash (String Py.backslash "b'").
Proof. reflexivity. Qed.

Example repr_control :
  Py.repr ("a" +:+ Py.nl +:+ String "127"%char (String "001"%char ""))
  = "'a" +:+ String Py.backslash "n"
    +:+ String Py.backslash "x7f" +:+ String Py.backslash "x01'".
Proof. reflexivity. Qed.

Lemma repr_char_plain (c : ascii) :
  Py.plain_char c = true → Py.repr_char Py.squote c = String c "".
Proof.
  destruct c as [[] [] [] [] [] [] [] []]; intros H;
    first [discriminate H | reflexivity].
Qed.

Lemma plain_char_not_squote (c : ascii) :
  Py.plain_char c = true → Ascii.eqb c Py.squote = false.
Proof.
  destruct c as [[] [] [] [] [] [] [] []]; intros H;
    first [discriminate H | reflexivity].
Qed.

Lemma repr_chars_plain (s : string) :
  Py.plain s = true → Py.repr_chars Py.squote s = s.
Proof.
  induction s as [|c s IH]; simpl; [done|].
  intros [Hc Hs]%andb_true_iff.
  by rewrite (repr_char_plain c Hc), (IH Hs).
Qed.

Lemma has_squote_plain (s : string) :
  Py.plain s = true → Py.has_char Py.squote s = false.
Proof.
  induction s as [|c s IH]; simpl; [done|].
  intros [Hc Hs]%andb_true_iff.
  by rewrite (plain_char_not_squote c Hc), (IH Hs).
Qed.

(** A plain name is written between single quotes, as it is. *)
Lemma repr_plain (s : string) :
  Py.plain s = true → Py.repr s = "'" +:+ s +:+ "'".
Proof.
  intros Hs. unfold Py.repr.
  rewrite (has_squote_plain s Hs). cbn [andb]. cbv zeta.
  by rewrite (repr_chars_plain s Hs).
Qed.

Lemma join_lists (sep : string) (l : list string) (k : string) :
  k ∈ l → ∃ pre post, Py.join sep l = pre +:+ k +:+ post.
Proof.
  induction l as [|a l IH]; [by intros ?%elem_of_nil|].
  intros [->|Hin]%elem_of_cons.
  - destruct l as [|b l].
    + exists "", "". symmetry. apply append_nil.
    + exists "", (sep +:+ Py.join sep (b :: l)). reflexivity.
  - destruct (IH Hin) as (pre & post & Heq).
    destruct l as [|b l]; [by apply elem_of_nil in Hin|].
    exists (a +:+ sep +:+ pre), post.
    change (Py.join sep (a :: b :: l))
      with (a +:+ sep +:+ Py.join sep (b :: l)).
    by rewrite Heq, !append_assoc.
Qed.

(** [str(l)] lists every element of [l], each as its [repr]. *)
Lemma str_list_lists (l : list string) (k : string) :
  k ∈ l → ∃ pre post, Py.str_list l = pre +:+ Py.repr k +:+ post.
Proof.
  intros Hin.
  destruct (join_lists ", " (map Py.repr l) (Py.repr k)) as (pre & post & Heq).
  { apply list_elem_of_fmap. eauto. }
  exists ("[" +:+ pre), (post +:+ "]"). unfold Py.str_list.
  by rewrite Heq, !append_assoc.
Qed.

(** ** The script on the concrete site *)

(** A launch for ["sg-app"] in ["us-east-1a"], MySQL 5.6 stable, with no
    override: the role key is ["level2-56-stable"], the subnet
    ["subnet-123"], and the instance id comes back. *)
Example site_role_key :
  run (format Site.tables.(HIERA_FORMAT) (hiera_kwargs "level2" "5.6" "stable"))
  = (inr "level2-56-stable", []).
Proof. vm_compute. reflexivity. Qed.

Example site_launch :
  (run (launch_amazon_mysql_server Site.tables Site.dba
          (Site.req "db-1" None "precise" false))).1 = inr (Some "i-0123").
Proof. vm_compute. reflexivity. Qed.

Example site_descriptor :
  map (λ c, (c !! "subnet_id", c !! "instance_profile_name", c !! "image_id"))
    (descriptors
       (run (launch_amazon_mysql_server Site.tables Site.dba
               (Site.req "db-1" None "precise" false))).2)
  = [(Some (Str "subnet-123"), Some (Str "iam-level2"), Some (Str "ami-0001"));
     (Some (Str "subnet-123"), Some (Str "iam-level2"), Some (Str "ami-0001"))].
Proof. vm_compute. reflexivity. Qed.

Example site_user_data :
  user_data Site.tables "level2-56-stable" "db-1"
  = "#cloud-config" +:+ Py.nl +:+ "pinfo_team: db" +:+ Py.nl +:+
    "pinfo_env: prod" +:+ Py.nl +:+ "pinfo_role: level2-56-stable" +:+
    Py.nl +:+ "hostname: db-1" +:+ Py.nl +:+ "raid: true" +:+ Py.nl +:+
    "raid_fs: xfs" +:+ Py.nl +:+ "raid_mount: /raid0".
Proof. reflexivity. Qed.

Example site_unauthorised :
  run (launch_amazon_mysql_server Site.tables Site.guest
         (Site.req "db-1" None "precise" false))
  = (inl (Exception "This role may not launch instances"),
     requested_log (Site.req "db-1" None "precise" false)
     ++ [GetSecurityRole]).
Proof. vm_compute. reflexivity. Qed.

(** When EC2 refuses the launch, the call raises EC2's exception after
    the [config] was submitted; when the connection to the registry
    cannot be opened, it raises right after asking for it. *)
Example site_refused :
  (run (launch_amazon_mysql_server Site.tables Site.refused
          (Site.req "db-1" None "precise" false))).1
  = inl (External "InsufficientInstanceCapacity")
  ∧ length (submitted
              (run (launch_amazon_mysql_server Site.tables Site.refused
                      (Site.req "db-1" None "precise" false))).2) = 1.
Proof. split; vm_compute; reflexivity. Qed.

Example site_offline :
  (run (launch_amazon_mysql_server Site.tables Site.offline
          (Site.req "db-1" None "precise" false))).1
  = inl (External "OperationalError")
  ∧ last (run (launch_amazon_mysql_server Site.tables Site.offline
                 (Site.req "db-1" None "precise" false))).2
    = Some GetMysqlopsConnections.
Proof. split; vm_compute; reflexivity. Qed.

(** ** [get_subnet_from_sg] *)

Section Resolve.

Context (E : environment_specific).

Lemma selected_app sg l1 l2 acc :
  selected E sg (l1 ++ l2) acc = selected E sg l2 (selected E sg l1 acc).
Proof. unfold selected. apply foldl_app. Qed.

Lemma selected_no_match sg entries acc :
  (∀ k, k ∈ entries → in_network E sg k = false) →
  selected E sg entries acc = acc.
Proof.
  revert acc. induction entries as [|k l IH]; intros acc H; [done|].
  change (selected E sg (k :: l) acc)
    with (selected E sg l (if in_network E sg k then Some k else acc)).
  rewrite (H k) by left. apply IH. intros k' Hk'. apply H. by right.
Qed.

Lemma selected_last_match sg l1 k l2 acc :
  in_network E sg k = true →
  (∀ k', k' ∈ l2 → in_network E sg k' = false) →
  selected E sg (l1 ++ k :: l2) acc = Some k.
Proof.
  intros Hk Hl2. rewrite selected_app.
  change (selected E sg (k :: l2) ?a)
    with (selected E sg l2 (if in_network E sg k then Some k else a)).
  rewrite Hk. by apply selected_no_match.
Qed.

(** Whatever the loop selects is the last entry that holds the group. *)
Lemma selected_inv sg entries n :
  selected E sg entries None = Some n →
  ∃ l1 l2, entries = l1 ++ n :: l2
           ∧ in_network E sg n = true
           ∧ ∀ k, k ∈ l2 → in_network E sg k = false.
Proof.
  induction entries as [|k l IH] using rev_ind; [done|].
  rewrite selected_app.
  change (selected E sg [k] ?a)
    with (if in_network E sg k then Some k else a).
  destruct (in_network E sg k) eqn:Hk.
  - intros [= ->]. exists l, []. split_and!; [done..|].
    intros k Hin. by apply elem_of_nil in Hin.
  - intros (l1 & l2 & -> & Hn & Hl2)%IH.
    exists l1, (l2 ++ [k]). split_and!; [by rewrite <- app_assoc|done|].
    intros k' [Hin|Hin%list_elem_of_singleton]%elem_of_app; [eauto|by subst].
Qed.

Lemma scan_entries_run entries sg acc tr :
  (∀ k, k ∈ entries → k ∈ keys E.(VPC_SUBNET_SG_MAP)) →
  scan_entries E entries sg acc tr = (inr (selected E sg entries acc), tr).
Proof.
  revert acc. induction entries as [|k l IH]; intros acc Hin; [done|].
  simpl. unfold bind, getitem_ordered.
  destruct (assoc_keys E.(VPC_SUBNET_SG_MAP) k) as [members Hm];
    [apply Hin; by left|].
  rewrite Hm. simpl. rewrite IH by (intros; apply Hin; by right).
  f_equal. f_equal.
  change (selected E sg (k :: l) acc)
    with (selected E sg l (if in_network E sg k then Some k else acc)).
  unfold in_network. by rewrite Hm.
Qed.

(** The function in closed form: what it returns or raises, and what it
    logs, from any starting trace. *)
Lemma get_subnet_from_sg_run sg az tr :
  get_subnet_from_sg E sg az tr
  = match selected E sg (keys E.(VPC_SUBNET_SG_MAP)) None with
    | None => (inl (Exception (no_subnet_msg sg)), tr)
    | Some n =>
        if String.eqb n ""
        then (inl (Exception (no_subnet_msg sg)), tr)
        else
          match E.(VPC_AZ_SUBNET_MAP) !! n with
          | None => (inl (KeyError (Some n)), tr)
          | Some by_az =>
              match by_az !! az with
              | None => (inl (KeyError (Some az)), tr)
              | Some s =>
                  (inr (n, s), tr ++ [Log (WillUseSubnet s n sg az)])
              end
          end
    end.
Proof.
  unfold get_subnet_from_sg, bind. rewrite scan_entries_run by done.
  destruct (selected E sg _ None) as [n|]; [|done].
  unfold Py.truthy. destruct (String.eqb n ""); simpl; [done|].
  unfold getitem. destruct (E.(VPC_AZ_SUBNET_MAP) !! n) as [by_az|]; [|done].
  simpl. by destruct (by_az !! az).
Qed.

(** A run from any trace is the run from the empty trace, appended. *)
Lemma get_subnet_from_sg_frame sg az tr :
  get_subnet_from_sg E sg az tr
  = ((run (get_subnet_from_sg E sg az)).1,
     tr ++ (run (get_subnet_from_sg E sg az)).2).
Proof.
  unfold run. rewrite !get_subnet_from_sg_run.
  repeat case_match; simpl; by rewrite ?app_nil_r.
Qed.

(** A successful resolution logs its decision and nothing else, and the
    network it returns is non-empty, selected by the loop and has the
    returned subnet in the zone. *)
Lemma get_subnet_from_sg_inr sg az n s tr :
  run (get_subnet_from_sg E sg az) = (inr (n, s), tr) →
  selected E sg (keys E.(VPC_SUBNET_SG_MAP)) None = Some n
  ∧ n ≠ "" ∧ subnet_of E n az = Some s
  ∧ tr = [Log (WillUseSubnet s n sg az)].
Proof.
  unfold run, subnet_of. rewrite get_subnet_from_sg_run.
  destruct (selected E sg _ None) as [n'|]; [|done].
  destruct (String.eqb n' "") eqn:Hn'; [done|].
  apply String.eqb_neq in Hn'.
  destruct (E.(VPC_AZ_SUBNET_MAP) !! n') as [by_az|] eqn:Hby; [|done].
  destruct (by_az !! az) as [s'|] eqn:Hs; [|done].
  intros [= -> -> <-]. rewrite Hby. simpl. by rewrite Hs.
Qed.

Lemma get_subnet_from_sg_inl sg az e tr :
  run (get_subnet_from_sg E sg az) = (inl e, tr) → tr = [].
Proof.
  unfold run. rewrite get_subnet_from_sg_run.
  repeat case_match; by intros [= <- <-].
Qed.

End Resolve.

(** C2: a security group that no network lists makes [get_subnet_from_sg]
    raise [Exception("Could not determine subnet for sg:...")], whatever the
    zone, and nothing is returned; and when the network selected for the
    group has no subnet in the zone, the function raises as well: the
    [KeyError] of [VPC_AZ_SUBNET_MAP[vpc_subnet][az]] (or, for a network
    whose name is the empty string, the same "Could not determine"
    exception). *)
Theorem unresolvable_group_or_zone_raises
    (E : environment_specific) (g az : string) :
  (Forall (λ em, g ∉ em.2) E.(VPC_SUBNET_SG_MAP) →
   run (get_subnet_from_sg E (Some g) az)
   = (inl (Exception (no_subnet_msg (Some g))), []))
  ∧ (∀ l1 n l2,
       keys E.(VPC_SUBNET_SG_MAP) = l1 ++ n :: l2 →
       in_network E (Some g) n = true →
       Forall (λ k, in_network E (Some g) k = false) l2 →
       subnet_of E n az = None →
       ∃ e, run (get_subnet_from_sg E (Some g) az) = (inl e, [])
            ∧ (n = "" ∧ e = Exception (no_subnet_msg (Some g))
               ∨ n ≠ "" ∧ E.(VPC_AZ_SUBNET_MAP) !! n = None
                 ∧ e = KeyError (Some n)
               ∨ n ≠ "" ∧ is_Some (E.(VPC_AZ_SUBNET_MAP) !! n)
                 ∧ e = KeyError (Some az))).
Proof.
  split.
  - intros Habs. unfold run. rewrite get_subnet_from_sg_run.
    rewrite selected_no_match; [done|].
    intros k _. unfold in_network.
    destruct (assoc _ k) as [members|] eqn:Hk; [|done].
    apply assoc_elem_of in Hk. rewrite Forall_forall in Habs.
    apply Habs in Hk. simpl in *. by apply bool_decide_eq_false.
  - intros l1 n l2 Hkeys Hn Hl2 Hsub. unfold run.
    rewrite get_subnet_from_sg_run, Hkeys.
    rewrite (selected_last_match E (Some g) l1 n l2 None Hn)
      by (by apply Forall_forall).
    unfold subnet_of in Hsub.
    destruct (String.eqb n "") eqn:Hne.
    + apply String.eqb_eq in Hne. eauto.
    + apply String.eqb_neq in Hne.
      destruct (E.(VPC_AZ_SUBNET_MAP) !! n) as [by_az|] eqn:Hby; simpl in Hsub.
      * rewrite Hsub. eauto 10.
      * eauto 10.
Qed.

Lemma unresolvable_group_or_zone_raises_witness :
  run (get_subnet_from_sg Site.tables (Some "sg-none") "us-east-1a")
  = (inl (Exception (no_subnet_msg (Some "sg-none"))), [])
  ∧ ∃ e, run (get_subnet_from_sg Site.tables (Some "sg-app") "eu-west-1")
         = (inl e, [])
         ∧ ("prod-a" = "" ∧ e = Exception (no_subnet_msg (Some "sg-app"))
            ∨ "prod-a" ≠ ""
              ∧ Site.tables.(VPC_AZ_SUBNET_MAP) !! "prod-a" = None
              ∧ e = KeyError (Some "prod-a")
            ∨ "prod-a" ≠ ""
              ∧ is_Some (Site.tables.(VPC_AZ_SUBNET_MAP) !! "prod-a")
              ∧ e = KeyError (Some "eu-west-1")).
Proof.
  split.
  - apply (proj1 (unresolvable_group_or_zone_raises
                    Site.tables "sg-none" "us-east-1a")).
    apply (bool_decide_unpack _). vm_compute. reflexivity.
  - apply (proj2 (unresolvable_group_or_zone_raises
                    Site.tables "sg-app" "eu-west-1") [] "prod-a" ["prod-b"]).
    + reflexivity.
    + vm_compute. reflexivity.
    + apply (bool_decide_unpack _). vm_compute. reflexivity.
    + vm_compute. reflexivity.
Defined.

(** C3 (as amended): when a security group is listed under several
    networks, [get_subnet_from_sg] returns the last listing network in the
    iteration order of [VPC_SUBNET_SG_MAP] (each match overwrites
    [vpc_subnet]; the loop has no [break]), with that network's subnet in
    the zone. *)
Theorem last_matching_network_wins
    (E : environment_specific) (sg : option string) (az : string)
    (l1 l2 : list string) (n s : string) :
  keys E.(VPC_SUBNET_SG_MAP) = l1 ++ n :: l2 →
  in_network E sg n = true →
  Forall (λ k, in_network E sg k = false) l2 →
  n ≠ "" →
  subnet_of E n az = Some s →
  run (get_subnet_from_sg E sg az)
  = (inr (n, s), [Log (WillUseSubnet s n sg az)]).
Proof.
  intros Hkeys Hn Hl2 Hne Hsub. unfold run.
  rewrite get_subnet_from_sg_run, Hkeys.
  rewrite (selected_last_match E sg l1 n l2 None Hn)
    by (by apply Forall_forall).
  apply String.eqb_neq in Hne. rewrite Hne.
  unfold subnet_of in Hsub.
  destruct (E.(VPC_AZ_SUBNET_MAP) !! n) as [by_az|]; simpl in Hsub; [|done].
  by rewrite Hsub.
Qed.

Lemma last_matching_network_wins_witness :
  run (get_subnet_from_sg Site.ambiguous (Some "sg-app") "us-east-1a")
  = (inr ("prod-b", "subnet-456"),
     [Log (WillUseSubnet "subnet-456" "prod-b" (Some "sg-app") "us-east-1a")]).
Proof.
  apply (last_matching_network_wins Site.ambiguous (Some "sg-app")
           "us-east-1a" ["prod-a"] [] "prod-b" "subnet-456").
  - reflexivity.
  - vm_compute. reflexivity.
  - apply (bool_decide_unpack _). vm_compute. reflexivity.
  - apply (bool_decide_unpack _). vm_compute. reflexivity.
  - vm_compute. reflexivity.
Defined.

(** C3 (as written) fails: with ["sg-app"] listed under ["prod-a"] and then
    under ["prod-b"], the first match in iteration order is ["prod-a"], yet
    the function answers ["prod-b"]. *)
Lemma first_match_refuted :
  keys Site.ambiguous.(VPC_SUBNET_SG_MAP) = ["prod-a"; "prod-b"]
  ∧ in_network Site.ambiguous (Some "sg-app") "prod-a" = true
  ∧ in_network Site.ambiguous (Some "sg-app") "prod-b" = true
  ∧ (run (get_subnet_from_sg Site.ambiguous (Some "sg-app") "us-east-1a")).1
    = inr ("prod-b", "subnet-456").
Proof. split_and!; vm_compute; reflexivity. Qed.

(** ** [launch_amazon_mysql_server] *)

(** Unfold the script one layer: the monad, the collaborator wrappers and
    the dictionary subscripts. *)
Ltac script :=
  cbv beta iota zeta
    delta [launch_amazon_mysql_server get_security_role
           get_mysqlops_connections is_hostname_new connect_to_region
           run_instances external log_info getitem getitem_opt bind ret
           raise emit negb].

(** Expose the run of the script from the empty trace. *)
Ltac open_run :=
  match goal with
  | |- context [run (launch_amazon_mysql_server ?E ?W ?r)] =>
      change (run (launch_amazon_mysql_server E W r))
        with (launch_amazon_mysql_server E W r [])
  end.

(** Case analysis on the next closed scrutinee of the unfolded script. *)
Ltac next_case :=
  match goal with
  | |- context [match ?x with _ => _ end] =>
      lazymatch x with
      | context [match _ with _ => _ end] => fail
      | _ => destruct x eqn:?
      end
  end.

(** C9: when [SUPPORTED_HARDWARE] has no image for the hardware type and OS
    flavor, the call raises and nothing is assembled, logged as a
    configuration or submitted; for a caller allowed to launch, the
    exception is the [KeyError] of the failed subscript, raised right after
    the role check, and a [KeyError] is never one of the [Exception]
    instances that report a policy violation. *)
Theorem missing_image_raises_key_error
    (E : environment_specific) (W : world) (r : request) :
  image_of E r.(instance_type) r.(os_flavor) = None →
  ∃ e, run (launch_amazon_mysql_server E W r)
       = (inl e, requested_log r ++ [GetSecurityRole])
       ∧ descriptors (requested_log r ++ [GetSecurityRole]) = []
       ∧ (W.(security_role) ∈ E.(ROLE_TO_LAUNCH_INSTANCE) →
          (∃ k, e = KeyError (Some k)
                ∧ k ∈ [r.(instance_type); "ami"; r.(os_flavor)])
          ∧ ∀ msg, e ≠ Exception msg).
Proof.
  intros Himg. unfold image_of in Himg.
  open_run. script. rewrite log_requested_run. script. simpl.
  destruct (bool_decide _) eqn:Hrole; simpl.
  - apply bool_decide_eq_true in Hrole.
    destruct (E.(SUPPORTED_HARDWARE) !! _) as [hw|]; simpl in *;
      [|eexists; split_and!; [done..|intros _; split; [|done]];
        eexists; split; [done|set_solver]].
    destruct (hw !! "ami") as [ami|]; simpl in *;
      [|eexists; split_and!; [done..|intros _; split; [|done]];
        eexists; split; [done|set_solver]].
    rewrite Himg.
    eexists; split_and!; [done..|intros _; split; [|done]].
    eexists; split; [done|set_solver].
  - apply bool_decide_eq_false in Hrole.
    eexists; split_and!; [done..|]. intros Hin. by destruct Hrole.
Qed.

Lemma missing_image_raises_key_error_witness :
  ∃ e, run (launch_amazon_mysql_server Site.tables Site.dba
              (Site.req "db-1" None "trusty" false))
       = (inl e, requested_log (Site.req "db-1" None "trusty" false)
                 ++ [GetSecurityRole])
       ∧ descriptors (requested_log (Site.req "db-1" None "trusty" false)
                      ++ [GetSecurityRole]) = []
       ∧ (Site.dba.(security_role)
            ∈ Site.tables.(ROLE_TO_LAUNCH_INSTANCE) →
          (∃ k, e = KeyError (Some k) ∧ k ∈ ["i2.2xlarge"; "ami"; "trusty"])
          ∧ ∀ msg, e ≠ Exception msg).
Proof.
  apply (missing_image_raises_key_error Site.tables Site.dba
           (Site.req "db-1" None "trusty" false)).
  vm_compute. reflexivity.
Defined.

(** Walk the script through lines 86 to 105 for a request that
    [resolves]. *)
Ltac enter Hres :=
  let Hrole := fresh "Hrole" in
  let Himg := fresh "Himg" in
  let Hsub := fresh "Hsub" in
  let Hssh := fresh "Hssh" in
  let Hiam := fresh "Hiam" in
  let Hsg := fresh "Hsg" in
  let Hrun := fresh "Hrun" in
  destruct Hres as (Hrole & Himg & Hsub & Hssh & Hiam & Hsg);
  open_run; script; rewrite log_requested_run; script;
  rewrite (bool_decide_eq_true_2 _ Hrole); script;
  unfold image_of in Himg;
  destruct (SUPPORTED_HARDWARE _ !! _) as [?hw|]; [|done];
  simpl in Himg; script;
  destruct (_ !! "ami") as [?ami|]; [|done];
  simpl in Himg; script; rewrite Himg; script;
  rewrite get_subnet_from_sg_frame;
  destruct (run (get_subnet_from_sg _ _ _)) as [?res ?trs] eqn:Hrun;
  simpl in Hsub; rewrite Hsub in *;
  apply get_subnet_from_sg_inr in Hrun as (_ & _ & _ & ->);
  cbn [fst snd]; script;
  unfold security_of in Hssh, Hiam;
  destruct (SSH_SECURITY_MAP _ !! _) as [?security|]; [|done];
  simpl in Hssh, Hiam; script; rewrite Hssh; script; rewrite Hiam; script;
  destruct (vpc_security_group _) as [?sg|]; [|done];
  simpl in Hsg; script; rewrite Hsg; script.


(** An event is not in an explicit trace of other events. *)
Ltac not_in_trace :=
  let Hin := fresh "Hin" in
  intros Hin; unfold requested_log, requested in Hin; simpl in Hin;
  repeat (apply elem_of_cons in Hin as [Hin|Hin]; [discriminate Hin|]);
  by apply elem_of_nil in Hin.

(** Close a goal about the trace of a run that stopped early. *)
Ltac trace_facts :=
  repeat split;
  first
    [ reflexivity
    | rewrite ?descriptors_app, ?descriptors_requested_log; reflexivity
    | intros ?; not_in_trace
    | repeat (apply Forall_app; split);
      first [apply provisioning_requested_log | by repeat constructor] ].

(** No resolution exists once a lookup is known to fail. *)
Ltac refute :=
  intros ? (? & ? & ? & ? & ? & ?); simpl in *; first [done | congruence].

(** One step of the walk, and the way out when a lookup fails. *)
Ltac step := script; cbn [mbind option_bind].
Ltac early := right; split; [refute|eexists _, _; trace_facts].

(** Either the request [resolves], or the call raises before line 107
    with nothing assembled and no call to the provider. *)
Lemma resolves_or_fails_early
    (E : environment_specific) (W : world) (r : request) :
  (∃ x, resolves E W r x)
  ∨ ((∀ x, ¬ resolves E W r x)
     ∧ ∃ e tr, run (launch_amazon_mysql_server E W r) = (inl e, tr)
               ∧ descriptors tr = []
               ∧ Forall (λ ev, provisioning ev = false) tr
               ∧ ∀ h, IsHostnameNew h ∉ tr).
Proof.
  unfold resolves, image_of, security_of.
  open_run. script. rewrite log_requested_run. script.
  destruct (bool_decide _) eqn:Hrole; step;
    [apply bool_decide_eq_true in Hrole
    |apply bool_decide_eq_false in Hrole; early].
  destruct (SUPPORTED_HARDWARE E !! _) as [hw|]; step; [|early].
  destruct (hw !! "ami") as [ami|]; step; [|early].
  destruct (ami !! _) as [image|]; step; [|early].
  rewrite get_subnet_from_sg_frame.
  destruct (run (get_subnet_from_sg _ _ _)) as [[e|[n s]] trs] eqn:Hrun;
    cbn [fst snd]; script.
  { apply get_subnet_from_sg_inl in Hrun as ->. early. }
  apply get_subnet_from_sg_inr in Hrun as (_ & _ & _ & ->).
  destruct (SSH_SECURITY_MAP E !! n) as [security|] eqn:Hsec; step;
    [|right; split;
      [intros x (_ & _ & [= Hn _] & Hx & _); by rewrite <- Hn, Hsec in Hx
      |eexists _, _; trace_facts]].
  destruct (security !! "ssh") as [ssh|] eqn:Hssh; step;
    [|right; split;
      [intros x (_ & _ & [= Hn _] & Hx & _); rewrite <- Hn, Hsec in Hx;
       simpl in Hx; congruence
      |eexists _, _; trace_facts]].
  destruct (security !! "iam") as [iam|] eqn:Hiam; step;
    [|right; split;
      [intros x (_ & _ & [= Hn _] & _ & Hx & _); rewrite <- Hn, Hsec in Hx;
       simpl in Hx; congruence
      |eexists _, _; trace_facts]].
  destruct (vpc_security_group r) as [sg|]; step; [|early].
  destruct (VPC_SECURITY_GROUPS E !! sg) as [sg_id|] eqn:Hsg; step; [|early].
  left. exists (Build_resolution image n s ssh iam sg_id). simpl.
  rewrite Hsec. simpl. by rewrite Hssh, Hiam.
Qed.

Lemma resolves_network E W r x n s :
  resolves E W r x →
  (run (get_subnet_from_sg E r.(vpc_security_group)
          r.(availability_zone))).1 = inr (n, s) →
  x.(res_network) = n ∧ x.(res_subnet) = s.
Proof. intros (_ & _ & Hx & _) Hn. rewrite Hn in Hx. by injection Hx. Qed.

(** C5: an override that is smaller, as a string, than the [ssh] default
    of the resolved subnet makes the call raise; nothing is assembled,
    logged as a configuration or submitted, so no descriptor carries the
    override's profile; and when the earlier lookups succeed the exception
    is the "weaker access policy" one, whose message cites the override
    and the default. *)
Theorem weaker_override_rejected
    (E : environment_specific) (W : world) (r : request)
    (g n s d : string) :
  r.(ssh_group) = Some g →
  g ≠ "" →
  (run (get_subnet_from_sg E r.(vpc_security_group)
          r.(availability_zone))).1 = inr (n, s) →
  security_of E n "ssh" = Some d →
  String.ltb g d = true →
  ∃ e tr, run (launch_amazon_mysql_server E W r) = (inl e, tr)
          ∧ descriptors tr = []
          ∧ Forall (λ ev, provisioning ev = false) tr
          ∧ (∀ x, resolves E W r x →
                  e = Exception (weaker_policy_msg g d)).
Proof.
  intros Hg Hne Hsub Hd Hlt.
  destruct (resolves_or_fails_early E W r)
    as [[x Hres]|(Hno & e & tr & Hrun & Hdesc & Hprov & _)].
  - assert (x.(res_ssh) = d) as Hx.
    { destruct (resolves_network E W r x n s Hres Hsub) as [Hn _].
      destruct Hres as (_ & _ & _ & Hssh & _). congruence. }
    enter Hres.
    rewrite Hg, (proj2 (truthy_Some g) Hne), Hx, (string_ltb_not_ge _ _ Hlt).
    cbn [andb]. script.
    eexists _, _. split_and!; [reflexivity|trace_facts..|done].
  - exists e, tr. split_and!; [done..|]. intros x Hx. by destruct (Hno x).
Qed.

Lemma weaker_override_rejected_witness :
  ∃ e tr, run (launch_amazon_mysql_server Site.tables Site.dba
                 (Site.req "db-1" (Some "level1") "precise" false))
          = (inl e, tr)
          ∧ descriptors tr = []
          ∧ Forall (λ ev, provisioning ev = false) tr
          ∧ (∀ x, resolves Site.tables Site.dba
                    (Site.req "db-1" (Some "level1") "precise" false) x →
                  e = Exception (weaker_policy_msg "level1" "level2")).
Proof.
  apply (weaker_override_rejected Site.tables Site.dba
           (Site.req "db-1" (Some "level1") "precise" false)
           "level1" "prod-a" "subnet-123" "level2").
  - reflexivity.
  - apply (bool_decide_unpack _). vm_compute. reflexivity.
  - vm_compute. reflexivity.
  - vm_compute. reflexivity.
  - vm_compute. reflexivity.
Defined.

(** C7 (as amended): an override that is not a key of [SSH_IAM_MAPPING]
    makes the call raise whatever its rank, with nothing assembled or
    submitted; the exception is the same "weaker access policy" one that a
    too-low override gets, citing the override and the subnet's default:
    the script has no separate error for an unknown group. *)
Theorem unlisted_override_rejected
    (E : environment_specific) (W : world) (r : request) (g : string) :
  r.(ssh_group) = Some g →
  g ≠ "" →
  E.(SSH_IAM_MAPPING) !! g = None →
  ∃ e tr, run (launch_amazon_mysql_server E W r) = (inl e, tr)
          ∧ descriptors tr = []
          ∧ Forall (λ ev, provisioning ev = false) tr
          ∧ (∀ x, resolves E W r x →
                  e = Exception (weaker_policy_msg g x.(res_ssh))).
Proof.
  intros Hg Hne Hnone.
  destruct (resolves_or_fails_early E W r)
    as [[x Hres]|(Hno & e & tr & Hrun & Hdesc & Hprov & _)].
  - assert (∀ y, resolves E W r y → y.(res_ssh) = x.(res_ssh)) as Hsame.
    { intros y Hy. pose proof Hres as (_ & _ & Hsub & Hssh & _).
      destruct (resolves_network E W r y _ _ Hy Hsub) as [Hn _].
      destruct Hy as (_ & _ & _ & Hssh' & _). congruence. }
    enter Hres.
    rewrite Hg, (proj2 (truthy_Some g) Hne), Hnone.
    rewrite (bool_decide_eq_false_2 (is_Some None)) by (by intros [? ?]).
    rewrite andb_false_r. script.
    eexists _, _. split_and!; [reflexivity|trace_facts..|].
    intros y Hy. by rewrite (Hsame y Hy).
  - exists e, tr. split_and!; [done..|]. intros x Hx. by destruct (Hno x).
Qed.

Lemma unlisted_override_rejected_witness :
  ∃ e tr, run (launch_amazon_mysql_server Site.tables Site.dba
                 (Site.req "db-1" (Some "level9") "precise" false))
          = (inl e, tr)
          ∧ descriptors tr = []
          ∧ Forall (λ ev, provisioning ev = false) tr
          ∧ (∀ x, resolves Site.tables Site.dba
                    (Site.req "db-1" (Some "level9") "precise" false) x →
                  e = Exception (weaker_policy_msg "level9" x.(res_ssh))).
Proof.
  apply (unlisted_override_rejected Site.tables Site.dba
           (Site.req "db-1" (Some "level9") "precise" false) "level9").
  - reflexivity.
  - apply (bool_decide_unpack _). vm_compute. reflexivity.
  - vm_compute. reflexivity.
Defined.

(** C7 (as written) fails: ["level9"] is no key of [SSH_IAM_MAPPING] and
    ranks above the default ["level2"], yet the exception raised is the
    "weaker access policy" one, not a separate unrecognised-group error. *)
Lemma unlisted_override_gets_weaker_policy_error :
  Site.tables.(SSH_IAM_MAPPING) !! "level9" = None
  ∧ Py.str_ge "level9" "level2" = true
  ∧ (run (launch_amazon_mysql_server Site.tables Site.dba
            (Site.req "db-1" (Some "level9") "precise" false))).1
    = inl (Exception (weaker_policy_msg "level9" "level2"))
  ∧ (run (launch_amazon_mysql_server Site.tables Site.dba
            (Site.req "db-1" (Some "level1") "precise" false))).1
    = inl (Exception (weaker_policy_msg "level1" "level2")).
Proof. split_and!; vm_compute; reflexivity. Qed.

(** Walk the rest of the script by cases. *)
Ltac walk :=
  repeat (script; cbn [fst snd andb];
          first [rewrite format_frame | next_case]).

(** Membership of an event in an explicit trace. *)
Ltac in_trace :=
  repeat first [apply list_elem_of_here | apply list_elem_of_further].





(** C6 (as amended): for a request that [resolves], with a non-empty
    override that is at least the [ssh] default of the resolved subnet and
    a key of [SSH_IAM_MAPPING], and a role key that formats to a supported
    key, the call assembles and logs a complete [config] whose
    [instance_profile_name] is [SSH_IAM_MAPPING[ssh_group]], in place of
    the subnet's default; it is the only [config] the call logs or
    submits, and the one submitted to [run_instances] when the call
    returns an instance id. The [config] is logged and submitted, not
    returned. *)
Theorem accepted_override_profile_adopted
    (E : environment_specific) (W : world) (r : request) (x : resolution)
    (g profile key : string) :
  resolves E W r x →
  r.(ssh_group) = Some g →
  g ≠ "" →
  Py.str_ge g x.(res_ssh) = true →
  E.(SSH_IAM_MAPPING) !! g = Some profile →
  (run (format E.(HIERA_FORMAT)
          (hiera_kwargs g r.(mysql_major_version)
             r.(mysql_minor_version)))).1 = inr key →
  key ∈ E.(SUPPORTED_HIERA_CONFIGS) →
  ∃ c, Log (ConfigForNewServer c)
         ∈ (run (launch_amazon_mysql_server E W r)).2
       ∧ c !! "instance_profile_name" = Some (Str profile)
       ∧ Forall (λ c', c' = c)
           (descriptors (run (launch_amazon_mysql_server E W r)).2)
       ∧ (∀ id, (run (launch_amazon_mysql_server E W r)).1
                = inr (Some id) →
                RunInstances c ∈ (run (launch_amazon_mysql_server E W r)).2).
Proof.
  intros Hres Hg Hne Hge Hprof Hkey Hsup.
  assert (bool_decide (key ∈ E.(SUPPORTED_HIERA_CONFIGS)) = true) as Hb
    by (by apply bool_decide_eq_true).
  destruct (run (launch_amazon_mysql_server E W r)) as [res tr] eqn:Hrun.
  cbn [fst snd]. revert Hrun. enter Hres.
  rewrite Hg, (proj2 (truthy_Some g) Hne), Hge.
  rewrite (bool_decide_eq_true_2 (is_Some _)) by (by rewrite Hprof).
  cbn [andb]. script. rewrite Hprof. script.
  rewrite format_frame, Hkey. cbn [fst snd]. script. rewrite Hb. walk.
  all: intros [= <- <-]; eexists; split_and!;
    [ in_trace
    | by simplify_map_eq
    | cbn; repeat (apply Forall_cons; split; [reflexivity|]);
      by apply Forall_nil
    | intros id Hid; first [discriminate Hid|in_trace] ].
Qed.

Lemma accepted_override_profile_adopted_witness :
  ∃ c, Log (ConfigForNewServer c)
         ∈ (run (launch_amazon_mysql_server Site.tables Site.dba
                   (Site.req "db-1" (Some "level3") "precise" false))).2
       ∧ c !! "instance_profile_name" = Some (Str "iam-level3")
       ∧ Forall (λ c', c' = c)
           (descriptors
              (run (launch_amazon_mysql_server Site.tables Site.dba
                      (Site.req "db-1" (Some "level3") "precise" false))).2)
       ∧ (∀ id, (run (launch_amazon_mysql_server Site.tables Site.dba
                        (Site.req "db-1" (Some "level3") "precise" false))).1
                = inr (Some id) →
                RunInstances c
                  ∈ (run (launch_amazon_mysql_server Site.tables Site.dba
                            (Site.req "db-1" (Some "level3") "precise"
                               false))).2).
Proof.
  apply (accepted_override_profile_adopted Site.tables Site.dba
           (Site.req "db-1" (Some "level3") "precise" false)
           (Build_resolution "ami-0001" "prod-a" "subnet-123" "level2"
              "iam-level2" "sg-0a") "level3" "iam-level3"
           "level3-56-stable").
  - split_and!; [|vm_compute; reflexivity..].
    apply (bool_decide_unpack _). vm_compute. reflexivity.
  - reflexivity.
  - apply (bool_decide_unpack _). vm_compute. reflexivity.
  - vm_compute. reflexivity.
  - vm_compute. reflexivity.
  - vm_compute. reflexivity.
  - apply (bool_decide_unpack _). vm_compute. reflexivity.
Defined.

(** C6 (as written) fails: the override ["level3"] ranks above the default
    ["level2"] and is a key of [SSH_IAM_MAPPING], and the [config] with its
    profile is logged and submitted, but what the call returns is the
    instance id, or [None] for a dry run, never that [config]. *)
Lemma accepted_override_returns_id_not_descriptor :
  Py.str_ge "level3" "level2" = true
  ∧ Site.tables.(SSH_IAM_MAPPING) !! "level3" = Some "iam-level3"
  ∧ (run (launch_amazon_mysql_server Site.tables Site.dba
            (Site.req "db-1" (Some "level3") "precise" false))).1
    = inr (Some "i-0123")
  ∧ (run (launch_amazon_mysql_server Site.tables Site.dba
            (Site.req "db-1" (Some "level3") "precise" true))).1
    = inr None
  ∧ map (λ c, c !! "instance_profile_name")
      (descriptors
         (run (launch_amazon_mysql_server Site.tables Site.dba
                 (Site.req "db-1" (Some "level3") "precise" false))).2)
    = [Some (Str "iam-level3"); Some (Str "iam-level3")].
Proof. split_and!; vm_compute; reflexivity. Qed.



Lemma hiera_kwargs_lookup (lvl major minor name v : string) :
  hiera_kwargs lvl major minor !! name = Some v
  ↔ name = "ssh_security" ∧ v = lvl
    ∨ name = "mysql_major_version" ∧ v = Py.remove_char "." major
    ∨ name = "mysql_minor_version" ∧ v = minor.
Proof.
  unfold hiera_kwargs. rewrite !lookup_insert_Some, lookup_empty.
  split; [intuition (subst; try done; auto)|].
  intros [[-> ->]|[[-> ->]|[-> ->]]]; [by left|right..].
  - split; [done|]. by left.
  - split; [done|]. right. split; [done|]. by left.
Qed.

(** C8: the key that is checked is [HIERA_FORMAT] formatted with exactly
    three keyword arguments: the final access level (the subnet's default,
    or the accepted override), the major version with every ["."] removed,
    and the minor version. When that key is not in
    [SUPPORTED_HIERA_CONFIGS], a request that [resolves] raises
    [Exception("Hiera config ... is not supported.Supported configs are:
    ...")], whose message ends with [str(SUPPORTED_HIERA_CONFIGS)], right
    after the subnet resolution: no complete [config] has been logged or
    submitted. The message lists the valid set: every supported key occurs
    in it as its [repr], which for a plain name is the name between single
    quotes. *)
Theorem unsupported_hiera_config_rejected
    (E : environment_specific) (W : world) (r : request) (x : resolution)
    (lvl key : string) :
  resolves E W r x →
  (Py.truthy r.(ssh_group) = false ∧ lvl = x.(res_ssh)
   ∨ r.(ssh_group) = Some lvl ∧ lvl ≠ ""
     ∧ Py.str_ge lvl x.(res_ssh) = true
     ∧ is_Some (E.(SSH_IAM_MAPPING) !! lvl)) →
  (run (format E.(HIERA_FORMAT)
          (hiera_kwargs lvl r.(mysql_major_version)
             r.(mysql_minor_version)))).1 = inr key →
  key ∉ E.(SUPPORTED_HIERA_CONFIGS) →
  (∀ name v,
     hiera_kwargs lvl r.(mysql_major_version) r.(mysql_minor_version)
       !! name = Some v
     ↔ name = "ssh_security" ∧ v = lvl
       ∨ name = "mysql_major_version"
         ∧ v = Py.remove_char "." r.(mysql_major_version)
       ∨ name = "mysql_minor_version" ∧ v = r.(mysql_minor_version))
  ∧ String.index 0 "." (Py.remove_char "." r.(mysql_major_version)) = None
  ∧ run (launch_amazon_mysql_server E W r)
    = (inl (Exception
              ("Hiera config " +:+ key +:+
               " is not supported.Supported configs are: " +:+
               Py.str_list E.(SUPPORTED_HIERA_CONFIGS))),
       requested_log r
       ++ [GetSecurityRole;
           Log (WillUseSubnet x.(res_subnet) x.(res_network)
                  r.(vpc_security_group) r.(availability_zone))])
  ∧ descriptors
      (requested_log r
       ++ [GetSecurityRole;
           Log (WillUseSubnet x.(res_subnet) x.(res_network)
                  r.(vpc_security_group) r.(availability_zone))]) = []
  ∧ (∀ k, k ∈ E.(SUPPORTED_HIERA_CONFIGS) →
       (∃ pre post,
          "Hiera config " +:+ key +:+
          " is not supported.Supported configs are: " +:+
          Py.str_list E.(SUPPORTED_HIERA_CONFIGS)
          = pre +:+ Py.repr k +:+ post)
       ∧ (Py.plain k = true → Py.repr k = "'" +:+ k +:+ "'")).
Proof.
  intros Hres Hlvl Hkey Hunsup.
  split_and!; [intros; apply hiera_kwargs_lookup
              |apply (remove_char_absent "." _)| |by trace_facts
              |intros k Hk; split; [|apply repr_plain];
               destruct (str_list_lists _ k Hk) as (pre & post & ->);
               exists ("Hiera config " +:+ key +:+
                       " is not supported.Supported configs are: " +:+ pre),
                      post;
               by rewrite !append_assoc].
  enter Hres.
  assert (bool_decide (key ∈ E.(SUPPORTED_HIERA_CONFIGS)) = false) as Hb
    by (by apply bool_decide_eq_false).
  destruct Hlvl as [[Hfalse ->]|(Hg & Hne & Hge & [profile Hprof])].
  - destruct (ssh_group r) as [g|]; [rewrite Hfalse|]; script;
      rewrite format_frame, Hkey; cbn [fst snd]; script;
      rewrite Hb; script; by rewrite <- app_assoc.
  - rewrite Hg, (proj2 (truthy_Some lvl) Hne), Hge.
    rewrite (bool_decide_eq_true_2 (is_Some _)) by (by rewrite Hprof).
    cbn [andb]. script. rewrite Hprof. script.
    rewrite format_frame, Hkey. cbn [fst snd]. script.
    rewrite Hb. script. by rewrite <- app_assoc.
Qed.

Lemma unsupported_hiera_config_rejected_witness :
  (∀ name v,
     hiera_kwargs "level1" "5.6" "stable" !! name = Some v
     ↔ name = "ssh_security" ∧ v = "level1"
       ∨ name = "mysql_major_version" ∧ v = Py.remove_char "." "5.6"
       ∨ name = "mysql_minor_version" ∧ v = "stable")
  ∧ String.index 0 "." (Py.remove_char "." "5.6") = None
  ∧ run (launch_amazon_mysql_server Site.tables Site.dba
           {| hostname := "db-1"; instance_type := "i2.2xlarge";
              vpc_security_group := Some "sg-web";
              availability_zone := "us-east-1a"; ssh_group := None;
              mysql_major_version := "5.6"; mysql_minor_version := "stable";
              os_flavor := "precise"; dry_run := false;
              skip_name_check := false |})
    = (inl (Exception
              ("Hiera config " +:+ "level1-56-stable" +:+
               " is not supported.Supported configs are: " +:+
               Py.str_list Site.tables.(SUPPORTED_HIERA_CONFIGS))),
       requested_log
         {| hostname := "db-1"; instance_type := "i2.2xlarge";
            vpc_security_group := Some "sg-web";
            availability_zone := "us-east-1a"; ssh_group := None;
            mysql_major_version := "5.6"; mysql_minor_version := "stable";
            os_flavor := "precise"; dry_run := false;
            skip_name_check := false |}
       ++ [GetSecurityRole;
           Log (WillUseSubnet "subnet-456" "prod-b" (Some "sg-web")
                  "us-east-1a")])
  ∧ descriptors
      (requested_log
         {| hostname := "db-1"; instance_type := "i2.2xlarge";
            vpc_security_group := Some "sg-web";
            availability_zone := "us-east-1a"; ssh_group := None;
            mysql_major_version := "5.6"; mysql_minor_version := "stable";
            os_flavor := "precise"; dry_run := false;
            skip_name_check := false |}
       ++ [GetSecurityRole;
           Log (WillUseSubnet "subnet-456" "prod-b" (Some "sg-web")
                  "us-east-1a")]) = []
  ∧ (∀ k, k ∈ Site.tables.(SUPPORTED_HIERA_CONFIGS) →
       (∃ pre post,
          "Hiera config " +:+ "level1-56-stable" +:+
          " is not supported.Supported configs are: " +:+
          Py.str_list Site.tables.(SUPPORTED_HIERA_CONFIGS)
          = pre +:+ Py.repr k +:+ post)
       ∧ (Py.plain k = true → Py.repr k = "'" +:+ k +:+ "'")).
Proof.
  apply (unsupported_hiera_config_rejected Site.tables Site.dba
           {| hostname := "db-1"; instance_type := "i2.2xlarge";
              vpc_security_group := Some "sg-web";
              availability_zone := "us-east-1a"; ssh_group := None;
              mysql_major_version := "5.6"; mysql_minor_version := "stable";
              os_flavor := "precise"; dry_run := false;
              skip_name_check := false |}
           (Build_resolution "ami-0001" "prod-b" "subnet-456" "level1"
              "iam-level1" "sg-0c") "level1" "level1-56-stable").
  - split_and!; [|vm_compute; reflexivity..].
    apply (bool_decide_unpack _). vm_compute. reflexivity.
  - left. split; reflexivity.
  - vm_compute. reflexivity.
  - apply (bool_decide_unpack _). vm_compute. reflexivity.
Defined.

(** No event of an explicit trace is a call to the provider. *)
Ltac no_provisioning :=
  cbn; repeat (apply Forall_cons; split; [reflexivity|]); by apply Forall_nil.

Lemma suffix_here {A} (l : list A) : l = [] ++ l.
Proof. reflexivity. Qed.

Lemma suffix_further {A} (a : A) (l pre suf : list A) :
  l = pre ++ suf → a :: l = (a :: pre) ++ suf.
Proof. by intros ->. Qed.

(** An explicit trace ends with the given events. *)
Ltac ends_with := repeat first [apply suffix_here | apply suffix_further].




(** C1 (as amended): a dry run that gets through every check returns
    [None], not the descriptor. The complete [config], with all eight
    keys, has been logged just once and is the only one produced; the last
    thing the call does is log that it is in dry-run mode, and it makes no
    call to the provider. *)
Theorem dry_run_logs_config_and_returns_none
    (E : environment_specific) (W : world) (r : request)
    (v : option string) :
  r.(dry_run) = true →
  (run (launch_amazon_mysql_server E W r)).1 = inr v →
  v = None
  ∧ Forall (λ ev, provisioning ev = false)
      (run (launch_amazon_mysql_server E W r)).2
  ∧ last (run (launch_amazon_mysql_server E W r)).2 = Some (Log InDryRunMode)
  ∧ ∃ c, descriptors (run (launch_amazon_mysql_server E W r)).2 = [c]
         ∧ Log (ConfigForNewServer c)
             ∈ (run (launch_amazon_mysql_server E W r)).2
         ∧ dom c = config_keys
         ∧ c !! "instance_type" = Some (Str r.(instance_type))
         ∧ c !! "placement" = Some (Str r.(availability_zone))
         ∧ c !! "key_name" = Some (Str E.(PEM_KEY)).
Proof.
  intros Hdry.
  destruct (resolves_or_fails_early E W r)
    as [[x Hres]|(Hno & e & tr & Hrun & _)].
  - destruct (run (launch_amazon_mysql_server E W r)) as [res tr] eqn:Hrun.
    cbn [fst snd]. revert Hrun. enter Hres. rewrite Hdry. walk.
    all: intros [= <- <-] Hv; first [discriminate Hv|injection Hv as <-].
    all: split_and!; [done|no_provisioning|reflexivity|].
    all: eexists; split_and!;
      [ reflexivity | in_trace
      | rewrite !dom_insert_L, dom_empty_L; unfold config_keys; set_solver
      | by simplify_map_eq.. ].
  - rewrite Hrun. intros [=].
Qed.

Lemma dry_run_logs_config_and_returns_none_witness :
  @None string = None
  ∧ Forall (λ ev, provisioning ev = false)
      (run (launch_amazon_mysql_server Site.tables Site.dba
              (Site.req "db-1" None "precise" true))).2
  ∧ last (run (launch_amazon_mysql_server Site.tables Site.dba
                 (Site.req "db-1" None "precise" true))).2
    = Some (Log InDryRunMode)
  ∧ ∃ c, descriptors
           (run (launch_amazon_mysql_server Site.tables Site.dba
                   (Site.req "db-1" None "precise" true))).2 = [c]
         ∧ Log (ConfigForNewServer c)
             ∈ (run (launch_amazon_mysql_server Site.tables Site.dba
                       (Site.req "db-1" None "precise" true))).2
         ∧ dom c = config_keys
         ∧ c !! "instance_type" = Some (Str "i2.2xlarge")
         ∧ c !! "placement" = Some (Str "us-east-1a")
         ∧ c !! "key_name" = Some (Str "mysql-key").
Proof.
  apply (dry_run_logs_config_and_returns_none Site.tables Site.dba
           (Site.req "db-1" None "precise" true) None).
  - reflexivity.
  - vm_compute. reflexivity.
Defined.

(** C1 (as written) fails: this dry run gets through every check and a
    complete [config] is assembled and logged, but the value returned to
    the caller is [None]. *)
Lemma dry_run_returns_none_not_descriptor :
  (run (launch_amazon_mysql_server Site.tables Site.dba
          (Site.req "db-1" None "precise" true))).1 = inr None
  ∧ length (descriptors
              (run (launch_amazon_mysql_server Site.tables Site.dba
                      (Site.req "db-1" None "precise" true))).2) = 1.
Proof. split; vm_compute; reflexivity. Qed.

(** * Further properties of the script *)

(** ** [get_subnet_from_sg] *)

Lemma in_network_true (E : environment_specific) (sg : option string)
    (n : string) :
  in_network E sg n = true →
  ∃ g members, sg = Some g
               ∧ assoc E.(VPC_SUBNET_SG_MAP) n = Some members
               ∧ g ∈ members.
Proof.
  unfold in_network.
  destruct (assoc _ n) as [members|]; [|done].
  destruct sg as [g|]; simpl; [|done].
  intros Hg%bool_decide_eq_true. eauto.
Qed.

Lemma assoc_keys_inv {V} (d : list (string * V)) (k : string) (v : V) :
  assoc d k = Some v → k ∈ keys d.
Proof.
  intros H%assoc_elem_of. unfold keys.
  apply list_elem_of_fmap. by exists (k, v).
Qed.

Lemma assoc_of_elem {V} (d : list (string * V)) (k : string) (v : V) :
  NoDup (keys d) → (k, v) ∈ d → assoc d k = Some v.
Proof.
  unfold keys. induction d as [|[k' v'] d IH]; simpl.
  - intros _ H. by apply elem_of_nil in H.
  - intros [Hk' Hd]%NoDup_cons [[= -> ->]|Hin]%elem_of_cons.
    + by rewrite String.eqb_refl.
    + destruct (String.eqb k' k) eqn:Hk; [|by apply IH].
      apply String.eqb_eq in Hk as ->. destruct Hk'.
      apply list_elem_of_fmap. by exists (k, v).
Qed.

(** X1: what [get_subnet_from_sg] returns is never a default: the
    network is a non-empty key of [VPC_SUBNET_SG_MAP] whose member list
    holds the group (so the group is not [None]), the subnet is
    [VPC_AZ_SUBNET_MAP[network][az]], and the only effect is the one log
    record of the decision. *)
Theorem resolution_is_a_listing_network
    (E : environment_specific) (sg : option string) (az n s : string)
    (tr : list event) :
  run (get_subnet_from_sg E sg az) = (inr (n, s), tr) →
  ∃ g members by_az,
    sg = Some g
    ∧ n ≠ ""
    ∧ n ∈ keys E.(VPC_SUBNET_SG_MAP)
    ∧ assoc E.(VPC_SUBNET_SG_MAP) n = Some members
    ∧ g ∈ members
    ∧ E.(VPC_AZ_SUBNET_MAP) !! n = Some by_az
    ∧ by_az !! az = Some s
    ∧ tr = [Log (WillUseSubnet s n sg az)].
Proof.
  intros (Hsel & Hne & Hsub & ->)%get_subnet_from_sg_inr.
  apply selected_inv in Hsel as (l1 & l2 & Hkeys & Hn & _).
  apply in_network_true in Hn as (g & members & -> & Hm & Hg).
  unfold subnet_of in Hsub.
  destruct (E.(VPC_AZ_SUBNET_MAP) !! n) as [by_az|] eqn:Hby; [|done].
  simpl in Hsub. exists g, members, by_az.
  split_and!; try done. by apply assoc_keys_inv in Hm.
Qed.

Lemma resolution_is_a_listing_network_witness :
  ∃ g members by_az,
    Some "sg-app" = Some g
    ∧ "prod-a" ≠ ""
    ∧ "prod-a" ∈ keys Site.tables.(VPC_SUBNET_SG_MAP)
    ∧ assoc Site.tables.(VPC_SUBNET_SG_MAP) "prod-a" = Some members
    ∧ g ∈ members
    ∧ Site.tables.(VPC_AZ_SUBNET_MAP) !! "prod-a" = Some by_az
    ∧ by_az !! "us-east-1a" = Some "subnet-123"
    ∧ [Log (WillUseSubnet "subnet-123" "prod-a" (Some "sg-app")
              "us-east-1a")]
      = [Log (WillUseSubnet "subnet-123" "prod-a" (Some "sg-app")
                "us-east-1a")].
Proof.
  apply (resolution_is_a_listing_network Site.tables (Some "sg-app")
           "us-east-1a" "prod-a" "subnet-123").
  vm_compute. reflexivity.
Defined.

(** X2: when every key of [VPC_SUBNET_SG_MAP] is distinct and the group
    is listed under exactly one network, the answer does not depend on
    the order in which the dictionary is iterated: for every permutation
    of the table the function returns that network and its subnet in the
    zone. *)
Theorem unique_listing_is_order_independent
    (E : environment_specific) (d : list (string * list string))
    (g az n s : string) (members : list string) :
  NoDup (keys E.(VPC_SUBNET_SG_MAP)) →
  d ≡ₚ E.(VPC_SUBNET_SG_MAP) →
  (n, members) ∈ E.(VPC_SUBNET_SG_MAP) →
  g ∈ members →
  (∀ n' members',
     (n', members') ∈ E.(VPC_SUBNET_SG_MAP) → g ∈ members' → n' = n) →
  n ≠ "" →
  subnet_of E n az = Some s →
  run (get_subnet_from_sg (set_VPC_SUBNET_SG_MAP d E) (Some g) az)
  = (inr (n, s), [Log (WillUseSubnet s n (Some g) az)]).
Proof.
  intros Hnodup Hperm Hn Hg Huniq Hne Hsub.
  assert (NoDup (keys d)) as Hnodup'.
  { unfold keys in *. by rewrite Hperm. }
  assert ((n, members) ∈ d) as Hn' by (by rewrite Hperm).
  assert (n ∈ keys d) as Hkey.
  { unfold keys. apply list_elem_of_fmap. by exists (n, members). }
  apply list_elem_of_split in Hkey as (l1 & l2 & Hkeys).
  unfold run. rewrite get_subnet_from_sg_run. cbn [VPC_SUBNET_SG_MAP
    set_VPC_SUBNET_SG_MAP VPC_AZ_SUBNET_MAP]. rewrite Hkeys.
  rewrite (selected_last_match _ (Some g) l1 n l2 None).
  - apply String.eqb_neq in Hne. rewrite Hne.
    unfold subnet_of in Hsub.
    destruct (E.(VPC_AZ_SUBNET_MAP) !! n) as [by_az|]; simpl in Hsub; [|done].
    by rewrite Hsub.
  - unfold in_network. cbn [VPC_SUBNET_SG_MAP set_VPC_SUBNET_SG_MAP].
    rewrite (assoc_of_elem d n members Hnodup' Hn'). simpl.
    by apply bool_decide_eq_true.
  - intros k Hk. unfold in_network.
    cbn [VPC_SUBNET_SG_MAP set_VPC_SUBNET_SG_MAP].
    destruct (assoc d k) as [m|] eqn:Hm; [|done]. simpl.
    apply bool_decide_eq_false. intros Hgm.
    apply assoc_elem_of in Hm. rewrite Hperm in Hm.
    rewrite (Huniq k m Hm Hgm) in Hk.
    rewrite Hkeys in Hnodup'.
    apply NoDup_app in Hnodup' as (_ & _ & [Hnl2 _]%NoDup_cons). done.
Qed.

Lemma unique_listing_is_order_independent_witness :
  run (get_subnet_from_sg
         (set_VPC_SUBNET_SG_MAP
            [("prod-b", ["sg-web"]); ("prod-a", ["sg-app"; "sg-db"])]
            Site.tables)
         (Some "sg-app") "us-east-1a")
  = (inr ("prod-a", "subnet-123"),
     [Log (WillUseSubnet "subnet-123" "prod-a" (Some "sg-app")
             "us-east-1a")]).
Proof.
  apply (unique_listing_is_order_independent Site.tables
           [("prod-b", ["sg-web"]); ("prod-a", ["sg-app"; "sg-db"])]
           "sg-app" "us-east-1a" "prod-a" "subnet-123" ["sg-app"; "sg-db"]).
  - apply (bool_decide_unpack _). vm_compute. reflexivity.
  - apply Permutation_swap.
  - apply list_elem_of_here.
  - apply list_elem_of_here.
  - intros n' members' Hin Hg.
    apply elem_of_cons in Hin as [[= -> ->]|Hin]; [done|].
    apply elem_of_cons in Hin as [[= -> ->]|Hin];
      [|by apply elem_of_nil in Hin].
    apply elem_of_cons in Hg as [[=]|Hg]. by apply elem_of_nil in Hg.
  - apply (bool_decide_unpack _). vm_compute. reflexivity.
  - vm_compute. reflexivity.
Defined.

(** ** [launch_amazon_mysql_server]: the gates *)

Lemma submitted_nil (tr : list event) :
  Forall (λ ev, provisioning ev = false) tr → submitted tr = [].
Proof.
  induction 1 as [|ev tr Hev _ IH]; [done|].
  destruct ev; simpl in Hev; try discriminate Hev; exact IH.
Qed.

(** X3: a caller whose role is not in [ROLE_TO_LAUNCH_INSTANCE] gets
    [Exception(ROLE_ERROR_MSG)] whatever the request and the other tables:
    the call has only logged its arguments and asked for the role. *)
Theorem unauthorised_role_raises
    (E : environment_specific) (W : world) (r : request) :
  W.(security_role) ∉ E.(ROLE_TO_LAUNCH_INSTANCE) →
  run (launch_amazon_mysql_server E W r)
  = (inl (Exception E.(ROLE_ERROR_MSG)),
     requested_log r ++ [GetSecurityRole]).
Proof.
  intros Hrole. open_run. script. rewrite log_requested_run. script.
  by rewrite (bool_decide_eq_false_2 _ Hrole).
Qed.

Lemma unauthorised_role_raises_witness :
  run (launch_amazon_mysql_server Site.tables Site.guest
         (Site.req "db-1" None "precise" false))
  = (inl (Exception Site.tables.(ROLE_ERROR_MSG)),
     requested_log (Site.req "db-1" None "precise" false)
     ++ [GetSecurityRole]).
Proof.
  apply (unauthorised_role_raises Site.tables Site.guest
           (Site.req "db-1" None "precise" false)).
  apply (bool_decide_unpack _). vm_compute. reflexivity.
Defined.

Lemma get_subnet_from_sg_None (E : environment_specific) (az : string) :
  run (get_subnet_from_sg E None az)
  = (inl (Exception (no_subnet_msg None)), []).
Proof.
  unfold run. rewrite get_subnet_from_sg_run.
  rewrite selected_no_match; [done|].
  intros k _. unfold in_network. by destruct (assoc _ k).
Qed.

(** X4: the command line lets [--vpc_security_group] default to [None],
    but a call without a security group never launches: it always raises
    with nothing assembled and no call to the provider, and for a caller
    allowed to launch a type and flavor that have an image the exception
    is ["Could not determine subnet for sg:None"]. *)
Theorem missing_security_group_never_launches
    (E : environment_specific) (W : world) (r : request) :
  r.(vpc_security_group) = None →
  ∃ e tr, run (launch_amazon_mysql_server E W r) = (inl e, tr)
          ∧ descriptors tr = []
          ∧ Forall (λ ev, provisioning ev = false) tr
          ∧ (W.(security_role) ∈ E.(ROLE_TO_LAUNCH_INSTANCE) →
             is_Some (image_of E r.(instance_type) r.(os_flavor)) →
             e = Exception "Could not determine subnet for sg:None"
             ∧ tr = requested_log r ++ [GetSecurityRole]).
Proof.
  intros Hsg.
  destruct (resolves_or_fails_early E W r)
    as [[x Hres]|(Hno & e & tr & Hrun & Hdesc & Hprov & _)].
  { destruct Hres as (_ & _ & Hsub & _).
    by rewrite Hsg, get_subnet_from_sg_None in Hsub. }
  exists e, tr. split_and!; [done..|].
  intros Hrole [image Himg]. revert Hrun.
  open_run. script. rewrite log_requested_run. script.
  rewrite (bool_decide_eq_true_2 _ Hrole). script.
  unfold image_of in Himg.
  destruct (SUPPORTED_HARDWARE E !! _) as [hw|]; [|done].
  simpl in Himg. script.
  destruct (hw !! "ami") as [ami|]; [|done].
  simpl in Himg. script. rewrite Himg. script.
  rewrite get_subnet_from_sg_frame, Hsg, get_subnet_from_sg_None.
  cbn [fst snd]. script. intros [= <- <-].
  split; [reflexivity|by rewrite ?app_nil_r].
Qed.

Lemma missing_security_group_never_launches_witness :
  ∃ e tr, run (launch_amazon_mysql_server Site.tables Site.dba
                 (set_ssh_group None
                    {| hostname := "db-1"; instance_type := "i2.2xlarge";
                       vpc_security_group := None;
                       availability_zone := "us-east-1a";
                       ssh_group := None; mysql_major_version := "5.6";
                       mysql_minor_version := "stable";
                       os_flavor := "precise"; dry_run := false;
                       skip_name_check := false |}))
          = (inl e, tr)
          ∧ descriptors tr = []
          ∧ Forall (λ ev, provisioning ev = false) tr
          ∧ (Site.dba.(security_role)
               ∈ Site.tables.(ROLE_TO_LAUNCH_INSTANCE) →
             is_Some (image_of Site.tables "i2.2xlarge" "precise") →
             e = Exception "Could not determine subnet for sg:None"
             ∧ tr = requested_log
                      (set_ssh_group None
                         {| hostname := "db-1";
                            instance_type := "i2.2xlarge";
                            vpc_security_group := None;
                            availability_zone := "us-east-1a";
                            ssh_group := None;
                            mysql_major_version := "5.6";
                            mysql_minor_version := "stable";
                            os_flavor := "precise"; dry_run := false;
                            skip_name_check := false |})
                    ++ [GetSecurityRole]).
Proof.
  apply (missing_security_group_never_launches Site.tables Site.dba
           (set_ssh_group None
              {| hostname := "db-1"; instance_type := "i2.2xlarge";
                 vpc_security_group := None;
                 availability_zone := "us-east-1a";
                 ssh_group := None; mysql_major_version := "5.6";
                 mysql_minor_version := "stable";
                 os_flavor := "precise"; dry_run := false;
                 skip_name_check := false |})).
  reflexivity.
Defined.

(** ** [launch_amazon_mysql_server]: what a run does *)

(** A raised exception that is one of the script's own. *)
Ltac own_exception H :=
  exfalso; eapply H; reflexivity.

(** X5: a call that raises one of the script's own exceptions has made no
    call to the provider: every check comes before [connect_to_region]
    and [run_instances]. A call that raises after it reached the provider
    raises the provider's exception: that of [connect_to_region], with
    nothing submitted, or that of [run_instances], with one [config]
    submitted. *)
Theorem raising_call_never_provisions
    (E : environment_specific) (W : world) (r : request) (e : exn) :
  (run (launch_amazon_mysql_server E W r)).1 = inl e →
  ((∀ what, e ≠ External what) →
   Forall (λ ev, provisioning ev = false)
     (run (launch_amazon_mysql_server E W r)).2
   ∧ submitted (run (launch_amazon_mysql_server E W r)).2 = [])
  ∧ (Forall (λ ev, provisioning ev = false)
       (run (launch_amazon_mysql_server E W r)).2
     ∨ ∃ what,
         e = External what
         ∧ r.(dry_run) = false
         ∧ (W.(ec2_connection) E.(EC2_REGION) = Raises what
            ∧ submitted (run (launch_amazon_mysql_server E W r)).2 = []
            ∨ ∃ c, submitted (run (launch_amazon_mysql_server E W r)).2 = [c]
                   ∧ W.(launched_id) c = Raises what)).
Proof.
  destruct (resolves_or_fails_early E W r)
    as [[x Hres]|(Hno & e' & tr & Hrun & _ & Hprov & _)].
  - destruct (run (launch_amazon_mysql_server E W r)) as [res tr] eqn:Hrun.
    cbn [fst snd]. revert Hrun. enter Hres. walk.
    all: intros [= <- <-] Hv; first [discriminate Hv|injection Hv as <-].
    all: split;
      [ intros Hown; first
          [ own_exception Hown
          | split; [no_provisioning|reflexivity] ]
      | first
          [ left; no_provisioning
          | right; eexists; split_and!; [reflexivity|done|]; first
              [ left; split; reflexivity
              | right; eexists; split; [reflexivity|eassumption] ] ] ].
  - rewrite Hrun. cbn [fst snd]. intros [= <-].
    split; [intros _; split; [done|by apply submitted_nil]|by left].
Qed.

Lemma raising_call_never_provisions_witness :
  ((∀ what, External "InsufficientInstanceCapacity" ≠ External what) →
   Forall (λ ev, provisioning ev = false)
     (run (launch_amazon_mysql_server Site.tables Site.refused
             (Site.req "db-1" None "precise" false))).2
   ∧ submitted
       (run (launch_amazon_mysql_server Site.tables Site.refused
               (Site.req "db-1" None "precise" false))).2 = [])
  ∧ (Forall (λ ev, provisioning ev = false)
       (run (launch_amazon_mysql_server Site.tables Site.refused
               (Site.req "db-1" None "precise" false))).2
     ∨ ∃ what,
         External "InsufficientInstanceCapacity" = External what
         ∧ (Site.req "db-1" None "precise" false).(dry_run) = false
         ∧ (Site.refused.(ec2_connection) Site.tables.(EC2_REGION)
            = Raises what
            ∧ submitted
                (run (launch_amazon_mysql_server Site.tables Site.refused
                        (Site.req "db-1" None "precise" false))).2 = []
            ∨ ∃ c, submitted
                     (run (launch_amazon_mysql_server Site.tables
                             Site.refused
                             (Site.req "db-1" None "precise" false))).2
                   = [c]
                   ∧ Site.refused.(launched_id) c = Raises what)).
Proof.
  apply (raising_call_never_provisions Site.tables Site.refused
           (Site.req "db-1" None "precise" false)
           (External "InsufficientInstanceCapacity")).
  vm_compute. reflexivity.
Defined.

(** X6: a call that returns an instance id is not a dry run; its last
    three steps are [connect_to_region(EC2_REGION)], one [run_instances]
    and the log of the id; the id is the one the provider gave for the
    submitted [config], that [config] is the very one logged before, and
    no other call to the provider was made. *)
Theorem launched_instance_comes_from_one_submission
    (E : environment_specific) (W : world) (r : request) (id : string) :
  (run (launch_amazon_mysql_server E W r)).1 = inr (Some id) →
  r.(dry_run) = false
  ∧ ∃ c pre,
      (run (launch_amazon_mysql_server E W r)).2
      = pre ++ [ConnectToRegion E.(EC2_REGION); RunInstances c;
                Log (LaunchedInstance id)]
      ∧ W.(launched_id) c = Answers id
      ∧ descriptors pre = [c]
      ∧ Forall (λ ev, provisioning ev = false) pre
      ∧ dom c = config_keys.
Proof.
  destruct (resolves_or_fails_early E W r)
    as [[x Hres]|(Hno & e' & tr & Hrun & _)].
  - destruct (run (launch_amazon_mysql_server E W r)) as [res tr] eqn:Hrun.
    cbn [fst snd]. revert Hrun. enter Hres. walk.
    all: intros [= <- <-] Hv; first [discriminate Hv|injection Hv as <-].
    all: split; [done|]; eexists _, _;
      split_and!;
      [ ends_with | eassumption | reflexivity | no_provisioning
      | rewrite !dom_insert_L, dom_empty_L; unfold config_keys; set_solver ].
  - by rewrite Hrun.
Qed.

Lemma launched_instance_comes_from_one_submission_witness :
  (Site.req "db-1" None "precise" false).(dry_run) = false
  ∧ ∃ c pre,
      (run (launch_amazon_mysql_server Site.tables Site.dba
              (Site.req "db-1" None "precise" false))).2
      = pre ++ [ConnectToRegion Site.tables.(EC2_REGION); RunInstances c;
                Log (LaunchedInstance "i-0123")]
      ∧ Site.dba.(launched_id) c = Answers "i-0123"
      ∧ descriptors pre = [c]
      ∧ Forall (λ ev, provisioning ev = false) pre
      ∧ dom c = config_keys.
Proof.
  apply (launched_instance_comes_from_one_submission Site.tables Site.dba
           (Site.req "db-1" None "precise" false) "i-0123").
  vm_compute. reflexivity.
Defined.

Lemma registry_queries_nil (tr : list event) :
  (∀ h, IsHostnameNew h ∉ tr) → registry_queries tr = [].
Proof.
  induction tr as [|ev tr IH]; [done|]. intros Hno.
  assert (registry_queries tr = []) as Htr.
  { apply IH. intros h Hin. apply (Hno h). by right. }
  destruct ev; try exact Htr. destruct (Hno hostname0). by left.
Qed.

(** What a run that returns has done with the registry and the
    provider. *)
Lemma returning_run
    (E : environment_specific) (W : world) (r : request)
    (v : option string) :
  (run (launch_amazon_mysql_server E W r)).1 = inr v →
  registry_queries (run (launch_amazon_mysql_server E W r)).2
  = (if r.(skip_name_check) then [] else [r.(hostname)])
  ∧ (r.(skip_name_check) = false →
     W.(hostname_new) r.(hostname) = Answers true)
  ∧ GetMysqlopsConnections ∈ (run (launch_amazon_mysql_server E W r)).2
  ∧ ∃ c, submitted (run (launch_amazon_mysql_server E W r)).2
         = (if r.(dry_run) then [] else [c])
         ∧ (if r.(dry_run) then v = None
            else ∃ id, v = Some id ∧ W.(launched_id) c = Answers id).
Proof.
  destruct (resolves_or_fails_early E W r)
    as [[x Hres]|(Hno & e' & tr & Hrun & _)].
  - destruct (run (launch_amazon_mysql_server E W r)) as [res tr] eqn:Hrun.
    cbn [fst snd]. revert Hrun. enter Hres. walk.
    all: intros [= <- <-] Hv; first [discriminate Hv|injection Hv as <-].
    all: split_and!;
      [ reflexivity | done | in_trace
      | first [ exists ∅; split; reflexivity
              | eexists; split; [reflexivity|eexists; split;
                                  [reflexivity|eassumption]] ] ].
  - by rewrite Hrun.
Qed.

(** A host name that the registry knows stops every call that checks
    it, before the provider is reached. *)
Lemma used_hostname_run
    (E : environment_specific) (W : world) (r : request) :
  r.(skip_name_check) = false →
  W.(hostname_new) r.(hostname) = Answers false →
  (∃ e, (run (launch_amazon_mysql_server E W r)).1 = inl e)
  ∧ Forall (λ ev, provisioning ev = false)
      (run (launch_amazon_mysql_server E W r)).2.
Proof.
  intros Hskip Hnew.
  destruct (resolves_or_fails_early E W r)
    as [[x Hres]|(Hno & e & tr & Hrun & _ & Hprov & _)].
  - destruct (run (launch_amazon_mysql_server E W r)) as [res tr] eqn:Hrun.
    cbn [fst snd]. revert Hrun. enter Hres. rewrite Hskip, Hnew. walk.
    all: intros [= <- <-]; split; [eauto|no_provisioning].
  - rewrite Hrun. cbn [fst snd]. eauto.
Qed.

(** Walk the whole script by cases, from its first line. *)
Ltac subnet_case :=
  let H := fresh "Hsubnet" in
  rewrite get_subnet_from_sg_frame;
  destruct (run (get_subnet_from_sg _ _ _)) as [[?e|[?n ?s]] ?trs] eqn:H;
  [ apply get_subnet_from_sg_inl in H as ->
  | apply get_subnet_from_sg_inr in H as (_ & _ & _ & ->) ].

Ltac start_walk := open_run; script; rewrite log_requested_run.

Ltac walk_rest :=
  repeat (script; cbn [fst snd andb];
          first [rewrite format_frame | subnet_case | next_case]).

(** A goal about one kind of result: refuted by the other kind, or proved
    by [t]. *)
Ltac on_result t :=
  let H := fresh "Hresult" in intros ? H; first [discriminate H|t].

(** ** [launch_amazon_mysql_server]: the registry *)

(** X7: when the host-name check is not skipped, a call returns only if
    the registry said the host name is new, and it asked the registry
    exactly once, about the host name of the request. *)
Theorem return_requires_new_hostname
    (E : environment_specific) (W : world) (r : request)
    (v : option string) :
  r.(skip_name_check) = false →
  (run (launch_amazon_mysql_server E W r)).1 = inr v →
  W.(hostname_new) r.(hostname) = Answers true
  ∧ registry_queries (run (launch_amazon_mysql_server E W r)).2
    = [r.(hostname)].
Proof.
  intros Hskip Hv.
  destruct (returning_run E W r v Hv) as (Hq & Hnew & _).
  rewrite Hskip in Hq. auto.
Qed.

Lemma return_requires_new_hostname_witness :
  Site.dba.(hostname_new) "db-1" = Answers true
  ∧ registry_queries
      (run (launch_amazon_mysql_server Site.tables Site.dba
              (Site.req "db-1" None "precise" false))).2
    = ["db-1"].
Proof.
  apply (return_requires_new_hostname Site.tables Site.dba
           (Site.req "db-1" None "precise" false) (Some "i-0123")).
  - reflexivity.
  - vm_compute. reflexivity.
Defined.

(** X8: with [skip_name_check] the registry is never asked, however the
    call ends, so a host name that is already in use does not stop the
    launch. The connection to the registry is opened all the same by every
    call that returns, while a call that raises one of the script's own
    exceptions has not opened it: with the check skipped, every [raise]
    of the script comes before line 142. *)
Theorem skipped_check_never_queries_registry
    (E : environment_specific) (W : world) (r : request) :
  r.(skip_name_check) = true →
  registry_queries (run (launch_amazon_mysql_server E W r)).2 = []
  ∧ (∀ e, (run (launch_amazon_mysql_server E W r)).1 = inl e →
          (∀ what, e ≠ External what) →
          GetMysqlopsConnections
            ∉ (run (launch_amazon_mysql_server E W r)).2)
  ∧ (∀ v, (run (launch_amazon_mysql_server E W r)).1 = inr v →
          GetMysqlopsConnections
            ∈ (run (launch_amazon_mysql_server E W r)).2).
Proof.
  intros Hskip.
  destruct (run (launch_amazon_mysql_server E W r)) as [res tr] eqn:Hrun.
  cbn [fst snd]. revert Hrun. start_walk. rewrite Hskip. walk_rest.
  all: intros [= <- <-]; split_and!;
    [ reflexivity
    | intros ? Hresult Hown; first
        [ discriminate Hresult
        | injection Hresult as <-; own_exception Hown
        | not_in_trace ]
    | on_result in_trace ].
Qed.

Lemma skipped_check_never_queries_registry_witness :
  registry_queries
    (run (launch_amazon_mysql_server Site.tables Site.dba
            (site_skip "db-used" false))).2 = []
  ∧ (∀ e, (run (launch_amazon_mysql_server Site.tables Site.dba
                  (site_skip "db-used" false))).1 = inl e →
          (∀ what, e ≠ External what) →
          GetMysqlopsConnections
            ∉ (run (launch_amazon_mysql_server Site.tables Site.dba
                      (site_skip "db-used" false))).2)
  ∧ (∀ v, (run (launch_amazon_mysql_server Site.tables Site.dba
                  (site_skip "db-used" false))).1 = inr v →
          GetMysqlopsConnections
            ∈ (run (launch_amazon_mysql_server Site.tables Site.dba
                      (site_skip "db-used" false))).2).
Proof.
  apply (skipped_check_never_queries_registry Site.tables Site.dba
           (site_skip "db-used" false)).
  reflexivity.
Defined.

(** ** [launch_amazon_mysql_server]: the descriptor *)

(** X9: every complete [config] that a request which [resolves] logs or
    submits has exactly the eight keys, with the key pair and placement
    of the request, the image, subnet and (single) security group id read
    from the tables, and as [user_data] the cloud-config text for a role
    key that is in [SUPPORTED_HIERA_CONFIGS] and was formatted from the
    subnet's default level or from the override. Its profile is the
    subnet's [iam] default when no override is supplied and
    [SSH_IAM_MAPPING[ssh_group]] otherwise; the [INSTANCE_PROFILE_NAME]
    written first at line 96 never survives. *)
Theorem descriptor_content
    (E : environment_specific) (W : world) (r : request) (x : resolution) :
  resolves E W r x →
  Forall
    (λ c,
       dom c = config_keys
       ∧ c !! "key_name" = Some (Str E.(PEM_KEY))
       ∧ c !! "placement" = Some (Str r.(availability_zone))
       ∧ c !! "image_id" = Some (Str x.(res_image))
       ∧ c !! "instance_type" = Some (Str r.(instance_type))
       ∧ c !! "subnet_id" = Some (Str x.(res_subnet))
       ∧ c !! "security_group_ids" = Some (StrList [x.(res_sg_id)])
       ∧ (∃ lvl key,
            (lvl = x.(res_ssh) ∨ r.(ssh_group) = Some lvl)
            ∧ (run (format E.(HIERA_FORMAT)
                      (hiera_kwargs lvl r.(mysql_major_version)
                         r.(mysql_minor_version)))).1 = inr key
            ∧ key ∈ E.(SUPPORTED_HIERA_CONFIGS)
            ∧ c !! "user_data"
              = Some (Str (user_data E key r.(hostname))))
       ∧ (Py.truthy r.(ssh_group) = false
          ∧ c !! "instance_profile_name" = Some (Str x.(res_iam))
          ∨ ∃ g profile,
              r.(ssh_group) = Some g ∧ g ≠ ""
              ∧ E.(SSH_IAM_MAPPING) !! g = Some profile
              ∧ c !! "instance_profile_name" = Some (Str profile)))
    (descriptors (run (launch_amazon_mysql_server E W r)).2)
  ∧ (∀ v, (run (launch_amazon_mysql_server E W r)).1 = inr v →
          descriptors (run (launch_amazon_mysql_server E W r)).2 ≠ []).
Proof.
  intros Hres.
  destruct (run (launch_amazon_mysql_server E W r)) as [res tr] eqn:Hrun.
  cbn [fst snd]. revert Hrun. enter Hres. walk.
  all: intros [= <- <-]; split; [|on_result ltac:(cbn; done)].
  all: cbn; repeat (apply Forall_cons; split); try (by apply Forall_nil).
  all: split_and!;
    [ rewrite !dom_insert_L, dom_empty_L; unfold config_keys; set_solver
    | by simplify_map_eq..
    | eexists _, _; split_and!;
      [ | eassumption | by eapply bool_decide_eq_true_1
      | by simplify_map_eq ];
      first [by left|by right]
    | first
        [ left; split; [done|by simplify_map_eq]
        | right; eexists _, _; split_and!;
          [ reflexivity | by apply truthy_Some | eassumption
          | by simplify_map_eq ] ] ].
Qed.

Lemma descriptor_content_witness :
  Forall
    (λ c,
       dom c = config_keys
       ∧ c !! "key_name" = Some (Str "mysql-key")
       ∧ c !! "placement" = Some (Str "us-east-1a")
       ∧ c !! "image_id" = Some (Str "ami-0001")
       ∧ c !! "instance_type" = Some (Str "i2.2xlarge")
       ∧ c !! "subnet_id" = Some (Str "subnet-123")
       ∧ c !! "security_group_ids" = Some (StrList ["sg-0a"])
       ∧ (∃ lvl key,
            (lvl = "level2" ∨ Some "level3" = Some lvl)
            ∧ (run (format Site.tables.(HIERA_FORMAT)
                      (hiera_kwargs lvl "5.6" "stable"))).1 = inr key
            ∧ key ∈ Site.tables.(SUPPORTED_HIERA_CONFIGS)
            ∧ c !! "user_data"
              = Some (Str (user_data Site.tables key "db-1")))
       ∧ (Py.truthy (Some "level3") = false
          ∧ c !! "instance_profile_name" = Some (Str "iam-level2")
          ∨ ∃ g profile,
              Some "level3" = Some g ∧ g ≠ ""
              ∧ Site.tables.(SSH_IAM_MAPPING) !! g = Some profile
              ∧ c !! "instance_profile_name" = Some (Str profile)))
    (descriptors
       (run (launch_amazon_mysql_server Site.tables Site.dba
               (Site.req "db-1" (Some "level3") "precise" false))).2)
  ∧ (∀ v, (run (launch_amazon_mysql_server Site.tables Site.dba
                  (Site.req "db-1" (Some "level3") "precise" false))).1
          = inr v →
          descriptors
            (run (launch_amazon_mysql_server Site.tables Site.dba
                    (Site.req "db-1" (Some "level3") "precise" false))).2
          ≠ []).
Proof.
  apply (descriptor_content Site.tables Site.dba
           (Site.req "db-1" (Some "level3") "precise" false)
           (Build_resolution "ami-0001" "prod-a" "subnet-123" "level2"
              "iam-level2" "sg-0a")).
  split_and!; [|vm_compute; reflexivity..].
  apply (bool_decide_unpack _). vm_compute. reflexivity.
Defined.

(** ** [launch_amazon_mysql_server]: two calls compared *)

(** The subnet resolution of two runs walked in step. *)
Ltac subnet_case_both :=
  let H := fresh "Hsubnet" in
  rewrite !get_subnet_from_sg_frame;
  destruct (run (get_subnet_from_sg _ _ _)) as [[?e|[?n ?s]] ?trs] eqn:H;
  [ apply get_subnet_from_sg_inl in H as ->
  | apply get_subnet_from_sg_inr in H as (_ & _ & _ & ->) ].


(** Compare the descriptors of two explicit traces. *)
Ltac same_descriptors :=
  rewrite ?descriptors_app, ?descriptors_requested_log; cbn;
  rewrite ?app_nil_r; reflexivity.


(** X11: an override that is the empty string is no override: the call
    ends as the call without [ssh_group] does, with the same result or
    exception and the same [config] logged and submitted. *)
Theorem empty_override_is_no_override
    (E : environment_specific) (W : world) (r : request) :
  (run (launch_amazon_mysql_server E W (set_ssh_group (Some "") r))).1
  = (run (launch_amazon_mysql_server E W (set_ssh_group None r))).1
  ∧ descriptors
      (run (launch_amazon_mysql_server E W (set_ssh_group (Some "") r))).2
    = descriptors
        (run (launch_amazon_mysql_server E W (set_ssh_group None r))).2.
Proof.
  unfold set_ssh_group.
  unfold run; script; rewrite !log_requested_run.
  repeat (script;
          cbn [fst snd andb hostname instance_type vpc_security_group
               availability_zone ssh_group mysql_major_version
               mysql_minor_version os_flavor dry_run skip_name_check];
          first [ progress change (Py.truthy (Some "")) with false
                | rewrite !format_frame
                | subnet_case_both
                | next_case ]).
  all: split; [reflexivity|same_descriptors].
Qed.

Lemma remove_dots_kwargs (lvl v1 v2 minor : string) :
  Py.remove_char "." v1 = Py.remove_char "." v2 →
  hiera_kwargs lvl v1 minor = hiera_kwargs lvl v2 minor.
Proof. unfold hiera_kwargs. by intros ->. Qed.

(** X12: only the dot-free part of [mysql_major_version] matters: two
    major versions that are equal once their dots are removed (["5.6"]
    and ["56"]) give the same result or exception and the same [config]. *)
Theorem major_version_dots_are_ignored
    (E : environment_specific) (W : world) (r : request) (v1 v2 : string) :
  Py.remove_char "." v1 = Py.remove_char "." v2 →
  (run (launch_amazon_mysql_server E W (set_mysql_major_version v1 r))).1
  = (run (launch_amazon_mysql_server E W (set_mysql_major_version v2 r))).1
  ∧ descriptors
      (run (launch_amazon_mysql_server E W
              (set_mysql_major_version v1 r))).2
    = descriptors
        (run (launch_amazon_mysql_server E W
                (set_mysql_major_version v2 r))).2.
Proof.
  intros Hdots. unfold set_mysql_major_version.
  unfold run; script; rewrite !log_requested_run.
  repeat (script;
          cbn [fst snd andb hostname instance_type vpc_security_group
               availability_zone ssh_group mysql_major_version
               mysql_minor_version os_flavor dry_run skip_name_check];
          first [ rewrite (λ lvl m, remove_dots_kwargs lvl v1 v2 m Hdots)
                | rewrite !format_frame
                | subnet_case_both
                | next_case ]).
  all: split; [reflexivity|same_descriptors].
Qed.

Lemma major_version_dots_are_ignored_witness :
  (run (launch_amazon_mysql_server Site.tables Site.dba
          (set_mysql_major_version "5.6"
             (Site.req "db-1" None "precise" false)))).1
  = (run (launch_amazon_mysql_server Site.tables Site.dba
            (set_mysql_major_version "56"
               (Site.req "db-1" None "precise" false)))).1
  ∧ descriptors
      (run (launch_amazon_mysql_server Site.tables Site.dba
              (set_mysql_major_version "5.6"
                 (Site.req "db-1" None "precise" false)))).2
    = descriptors
        (run (launch_amazon_mysql_server Site.tables Site.dba
                (set_mysql_major_version "56"
                   (Site.req "db-1" None "precise" false)))).2.
Proof.
  apply (major_version_dots_are_ignored Site.tables Site.dba
           (Site.req "db-1" None "precise" false) "5.6" "56").
  reflexivity.
Defined.

(** ** [main] *)

Lemma main_run (E : environment_specific) (W : world) (args : namespace)
    (r : request) :
  r = {| hostname := args.(args_hostname);
         instance_type := args.(args_instance_type);
         vpc_security_group := args.(args_vpc_security_group);
         availability_zone := args.(args_availability_zone);
         ssh_group := args.(args_ssh_group);
         mysql_major_version := args.(args_mysql_major_version);
         mysql_minor_version := args.(args_mysql_minor_version);
         os_flavor := args.(args_os_flavor);
         dry_run := args.(args_dry_run);
         skip_name_check := false |} →
  run (main E W args)
  = (match (run (launch_amazon_mysql_server E W r)).1 with
     | inl e => inl e
     | inr _ => inr tt
     end,
     (run (launch_amazon_mysql_server E W r)).2).
Proof.
  intros ->. unfold main, run, bind, ret.
  by destruct (launch_amazon_mysql_server E W _ []) as [[e|v] tr].
Qed.

(** X13: a command-line run never skips the host-name check: when [main]
    ends without an exception, the registry was asked exactly once, about
    [args.hostname], and answered that the name is new; with [--dry_run]
    nothing was submitted to the provider, and without it exactly one
    [config] was. *)
Theorem main_returns_only_for_new_hostname
    (E : environment_specific) (W : world) (args : namespace) :
  (run (main E W args)).1 = inr tt →
  W.(hostname_new) args.(args_hostname) = Answers true
  ∧ registry_queries (run (main E W args)).2 = [args.(args_hostname)]
  ∧ ∃ c, submitted (run (main E W args)).2
         = (if args.(args_dry_run) then [] else [c]).
Proof.
  rewrite (main_run E W args _ eq_refl). cbn [fst snd].
  match goal with
  | |- context [run (launch_amazon_mysql_server E W ?r0)] => set (r := r0)
  end.
  pose proof (returning_run E W r) as Hret.
  destruct (run (launch_amazon_mysql_server E W r)) as [[e|v] tr]; [done|].
  intros _. cbn [fst snd] in Hret.
  destruct (Hret v eq_refl) as (Hq & Hnew & _ & c & Hc & _).
  split_and!; [by apply Hnew|done|by exists c].
Qed.

Lemma main_returns_only_for_new_hostname_witness :
  Site.dba.(hostname_new) "db-1" = Answers true
  ∧ registry_queries (run (main Site.tables Site.dba (site_args "db-1" true))).2
    = ["db-1"]
  ∧ ∃ c, submitted (run (main Site.tables Site.dba (site_args "db-1" true))).2
         = (if (site_args "db-1" true).(args_dry_run) then [] else [c]).
Proof.
  apply (main_returns_only_for_new_hostname Site.tables Site.dba
           (site_args "db-1" true)).
  vm_compute. reflexivity.
Defined.

(** X14: [main] raises whenever the host name is already registered,
    whatever the other arguments, and then nothing was submitted to the
    provider: the command line cannot reuse a host name. *)
Theorem main_rejects_used_hostname
    (E : environment_specific) (W : world) (args : namespace) :
  W.(hostname_new) args.(args_hostname) = Answers false →
  (∃ e, (run (main E W args)).1 = inl e)
  ∧ submitted (run (main E W args)).2 = [].
Proof.
  intros Hused. rewrite (main_run E W args _ eq_refl). cbn [fst snd].
  match goal with
  | |- context [run (launch_amazon_mysql_server E W ?r0)] => set (r := r0)
  end.
  destruct (used_hostname_run E W r eq_refl Hused) as [[e He] Hno].
  rewrite He. split; [eauto|]. by apply submitted_nil.
Qed.

Lemma main_rejects_used_hostname_witness :
  (∃ e, (run (main Site.tables Site.dba (site_args "db-used" false))).1
        = inl e)
  ∧ submitted (run (main Site.tables Site.dba (site_args "db-used" false))).2
    = [].
Proof.
  apply (main_rejects_used_hostname Site.tables Site.dba
           (site_args "db-used" false)).
  reflexivity.
Defined.

(** ** [launch_amazon_mysql_server]: when it succeeds, and table gaps *)

(** A leaf of the walk where a collaborator is assumed to answer and
    does not, and a leaf where the call returns. *)
Ltac answered Hname Hec2 :=
  first
    [ destruct Hname; congruence
    | destruct Hec2 as [?|[? Hid]]; [congruence|];
      first
        [ congruence
        | match goal with
          | H : launched_id _ ?c = Raises _ |- _ =>
              destruct (Hid c) as [? ?]; congruence
          end ] ].

Ltac returned :=
  eexists; split_and!;
    [ first [reflexivity|eexists; split; [eassumption|reflexivity]]
    | reflexivity
    | by simplify_map_eq
    | by simplify_map_eq ].

(** X15: the checks are sufficient when the collaborators answer: a
    request that [resolves], whose override (if any) is accepted, whose
    role key formats to a supported key, whose registry connection opens
    and whose host name is new or not checked, returns [None] for a dry
    run; otherwise, when EC2 accepts the connection and the launch, it
    returns the id EC2 gives for the [config]. That [config] carries the
    final profile and the cloud-config text of the key, is logged once
    and, unless it is a dry run, submitted once. *)
Theorem launch_succeeds
    (E : environment_specific) (W : world) (r : request) (x : resolution)
    (lvl profile key : string) :
  resolves E W r x →
  (Py.truthy r.(ssh_group) = false ∧ lvl = x.(res_ssh)
     ∧ profile = x.(res_iam)
   ∨ r.(ssh_group) = Some lvl ∧ lvl ≠ ""
     ∧ Py.str_ge lvl x.(res_ssh) = true
     ∧ E.(SSH_IAM_MAPPING) !! lvl = Some profile) →
  (run (format E.(HIERA_FORMAT)
          (hiera_kwargs lvl r.(mysql_major_version)
             r.(mysql_minor_version)))).1 = inr key →
  key ∈ E.(SUPPORTED_HIERA_CONFIGS) →
  W.(mysqlops_connections) = Answers tt →
  (r.(skip_name_check) = true
   ∨ W.(hostname_new) r.(hostname) = Answers true) →
  (r.(dry_run) = true
   ∨ W.(ec2_connection) E.(EC2_REGION) = Answers tt
     ∧ ∀ c, ∃ id, W.(launched_id) c = Answers id) →
  ∃ c, (if r.(dry_run)
        then (run (launch_amazon_mysql_server E W r)).1 = inr None
        else ∃ id, W.(launched_id) c = Answers id
                   ∧ (run (launch_amazon_mysql_server E W r)).1
                     = inr (Some id))
       ∧ descriptors (run (launch_amazon_mysql_server E W r)).2
         = c :: (if r.(dry_run) then [] else [c])
       ∧ c !! "instance_profile_name" = Some (Str profile)
       ∧ c !! "user_data" = Some (Str (user_data E key r.(hostname))).
Proof.
  intros Hres Hlvl Hkey Hsup Hconn Hname Hec2.
  assert (bool_decide (key ∈ E.(SUPPORTED_HIERA_CONFIGS)) = true) as Hb
    by (by apply bool_decide_eq_true).
  enter Hres.
  destruct Hlvl as [(Hfalse & -> & ->)|(Hg & Hne & Hge & Hprof)].
  - destruct (ssh_group r) as [g|]; [rewrite Hfalse|]; script;
      rewrite format_frame, Hkey; cbn [fst snd]; script;
      rewrite Hb; script; rewrite Hconn; walk;
      first [answered Hname Hec2|returned].
  - rewrite Hg, (proj2 (truthy_Some lvl) Hne), Hge.
    rewrite (bool_decide_eq_true_2 (is_Some _)) by (by rewrite Hprof).
    cbn [andb]. script. rewrite Hprof. script.
    rewrite format_frame, Hkey. cbn [fst snd]. script.
    rewrite Hb. script. rewrite Hconn. walk.
    all: first [answered Hname Hec2|returned].
Qed.

Lemma launch_succeeds_witness :
  ∃ c, (if (Site.req "db-1" (Some "level3") "precise" false).(dry_run)
        then (run (launch_amazon_mysql_server Site.tables Site.dba
                     (Site.req "db-1" (Some "level3") "precise" false))).1
             = inr None
        else ∃ id, Site.dba.(launched_id) c = Answers id
                   ∧ (run (launch_amazon_mysql_server Site.tables Site.dba
                             (Site.req "db-1" (Some "level3") "precise"
                                false))).1
                     = inr (Some id))
       ∧ descriptors
           (run (launch_amazon_mysql_server Site.tables Site.dba
                   (Site.req "db-1" (Some "level3") "precise" false))).2
         = c :: (if (Site.req "db-1" (Some "level3") "precise"
                       false).(dry_run)
                 then [] else [c])
       ∧ c !! "instance_profile_name" = Some (Str "iam-level3")
       ∧ c !! "user_data"
         = Some (Str (user_data Site.tables "level3-56-stable" "db-1")).
Proof.
  apply (launch_succeeds Site.tables Site.dba
           (Site.req "db-1" (Some "level3") "precise" false)
           (Build_resolution "ami-0001" "prod-a" "subnet-123" "level2"
              "iam-level2" "sg-0a") "level3" "iam-level3"
           "level3-56-stable").
  - split_and!; [|vm_compute; reflexivity..].
    apply (bool_decide_unpack _). vm_compute. reflexivity.
  - right. split_and!; [reflexivity| |vm_compute; reflexivity..].
    apply (bool_decide_unpack _). vm_compute. reflexivity.
  - vm_compute. reflexivity.
  - apply (bool_decide_unpack _). vm_compute. reflexivity.
  - reflexivity.
  - right. reflexivity.
  - right. split; [reflexivity|]. intros c. exists "i-0123". reflexivity.
Defined.


